(** * override: Java-style [@override] checking for Python classes

    A shallow embedding of [src/__init__.py] (the [override] marker, the
    [OverridesMeta] metaclass and [create_custom_overrides_meta]) together
    with the fragment of the Python object model the module runs on:
    an object store, classes with their bases, MRO and namespace,
    attribute lookup on classes with descriptor binding, [isinstance],
    [callable], [hash], [type.__new__] and [type.__setattr__].

    The module's own functions are embedded line by line. The functions
    of the interpreter are embedded as far as the module needs them; the
    section "The reach of the model of the interpreter" states, as
    predicates on the store, for which classes and names they follow
    the interpreter, and the properties that depend on it carry these
    predicates as hypotheses.

    Conventions.
    - Objects live in a store ([heap]); a reference is an index into it, so
      that Python's [is] is equality of references.
    - Code that can raise or mutate runs in the monad [M]: a function from
      the store to either a value or an exception, each with the new store.
    - Attribute names are Rocq strings; a class namespace is an association
      list in insertion order, as Python dicts iterate. *)

From Stdlib Require Import String Ascii List ZArith Lia Bool.
From stdpp Require Import base list strings option.

(** ** Objects and the store *)

Abbreviation ref := nat (only parsing).

(** A namespace (a [dict] with string keys), in insertion order. *)
Abbreviation pydict := (list (string * ref)) (only parsing).

Fixpoint dict_get (k : string) (d : pydict) : option ref :=
  match d with
  | [] => None
  | (k', v) :: d' => if String.eqb k k' then Some v else dict_get k d'
  end.

(** [d[k] = v]: an existing key keeps its position, a new key is appended. *)
Fixpoint dict_set (k : string) (v : ref) (d : pydict) : pydict :=
  match d with
  | [] => [(k, v)]
  | (k', v') :: d' =>
      if String.eqb k k' then (k', v) :: d' else (k', v') :: dict_set k v d'
  end.

(** What [__get__(None, cls)] of a descriptor does when the attribute is
    read through a class, for a descriptor of a type other than the ones
    named below: it returns an object of the store, builds a new object
    of a given type, or raises [AttributeError]. A [__get__] that depends
    on the class, raises another exception or changes the store is
    outside the model. *)
Inductive binding :=
| Gives (r : ref)
| Makes (t : ref)
| Fails.

(** The payload of an object, next to its type pointer. *)
Inductive body :=
| BClass (tp_name : string) (tp_bases tp_mro : list ref) (tp_dict : pydict)
    (** a class: [__name__], [__bases__], [__mro__], [__dict__] *)
| BFunction (name : string)
    (** a plain function ([def]) *)
| BMethod (im_func im_self : ref)
    (** a bound method, [types.MethodType(func, self)] *)
| BWrapped (callable : ref)
    (** a [classmethod] or [staticmethod] object around [callable] *)
| BProperty (fget : option ref)
| BSlots (func : option ref)
    (** an [override] instance: its one slot [__func__], possibly unset *)
| BOpaque
    (** anything else that is no descriptor: [None], numbers, strings,
        builtin functions, instances of classes without [__get__]; and
        the builtin descriptors that return themselves when read through
        a class (slot wrappers, method, getset and member descriptors) *)
| BDescriptor (get : binding).
    (** an instance of another type that defines [__get__]: a user-defined
        descriptor, a builtin classmethod descriptor *)

Record pyobj := PyObj { ob_type : ref; ob_body : body }.

Abbreviation heap := (list pyobj) (only parsing).

(** The value of an expression: an object of the store, or a temporary
    the interpreter creates and drops without storing it (the bound method
    a class attribute access builds from a [classmethod]). *)
Inductive value :=
| Ref (r : ref)
| Temp (o : pyobj).

(** ** Exceptions and the state-and-exception monad *)

Inductive exn :=
| ValueError (msg : string)
| TypeError (msg : string)
| AttributeError (msg : string)
| RuntimeError (msg : string)
| OverrideError (msg : string).

Inductive result (A : Type) :=
| Ok (a : A) (h : heap)
| Raise (e : exn) (h : heap).
Arguments Ok {A} a h.
Arguments Raise {A} e h.

Definition M (A : Type) : Type := heap -> result A.

Definition ret {A} (a : A) : M A := fun h => Ok a h.
Definition raise {A} (e : exn) : M A := fun h => Raise e h.
Definition bind {A B} (m : M A) (k : A -> M B) : M B :=
  fun h => match m h with
           | Ok a h' => k a h'
           | Raise e h' => Raise e h'
           end.

Notation "'let*' x ':=' m 'in' k" := (bind m (fun x => k))
  (at level 10, x name, m at level 100, k at level 200).

(** Allocation of a new object: its reference is the next free index. *)
Definition alloc (o : pyobj) : M ref :=
  fun h => Ok (length h) (h ++ [o]).

Definition store_of {A} (r : result A) : heap :=
  match r with Ok _ h => h | Raise _ h => h end.

(** ** The names the module uses

    The classes the module refers to by name are objects of the store at
    fixed references. [function] and [method] are [types.FunctionType] and
    [types.MethodType] (line 1 of the source). *)

Definition object : ref := 0.
Definition type : ref := 1.
Definition function : ref := 2.
Definition method : ref := 3.
Definition classmethod : ref := 4.
Definition staticmethod : ref := 5.
Definition property : ref := 6.
Definition override : ref := 7.
Definition OverridesMeta : ref := 8.
Definition OverridesBase : ref := 9.

(** ** Reading the store *)

Definition type_of (h : heap) (r : ref) : option ref :=
  ob_type <$> h !! r.

Definition is_class (h : heap) (r : ref) : bool :=
  match h !! r with
  | Some (PyObj _ (BClass _ _ _ _)) => true
  | _ => false
  end.

(** [cls.__name__], [cls.__bases__], [cls.__mro__], [cls.__dict__]. *)
Definition class_name (h : heap) (c : ref) : string :=
  match h !! c with
  | Some (PyObj _ (BClass n _ _ _)) => n
  | _ => ""
  end.

Definition class_bases (h : heap) (c : ref) : list ref :=
  match h !! c with
  | Some (PyObj _ (BClass _ bs _ _)) => bs
  | _ => []
  end.

Definition class_mro (h : heap) (c : ref) : list ref :=
  match h !! c with
  | Some (PyObj _ (BClass _ _ mro _)) => mro
  | _ => []
  end.

Definition class_dict (h : heap) (c : ref) : pydict :=
  match h !! c with
  | Some (PyObj _ (BClass _ _ _ d)) => d
  | _ => []
  end.

Fixpoint mem (x : ref) (l : list ref) : bool :=
  match l with
  | [] => false
  | y :: l' => Nat.eqb x y || mem x l'
  end.

(** [issubclass(t, c)]: [c] occurs in the MRO of [t]. *)
Definition issubclass (h : heap) (t c : ref) : bool := mem c (class_mro h t).

(** [isinstance(x, c)], by the type of [x]. *)
Definition isinstance (h : heap) (x c : ref) : bool :=
  match type_of h x with
  | Some t => issubclass h t c
  | None => false
  end.

(** The search of a name along an MRO ([_PyType_Lookup]): the first class
    whose own namespace has the name wins. *)
Fixpoint mro_lookup (h : heap) (mro : list ref) (name : string) : option ref :=
  match mro with
  | [] => None
  | k :: mro' =>
      match dict_get name (class_dict h k) with
      | Some v => Some v
      | None => mro_lookup h mro' name
      end
  end.

Definition type_lookup (h : heap) (t : ref) (name : string) : option ref :=
  mro_lookup h (class_mro h t) name.

(** [callable(x)]: the type of [x] has a call slot, that is [__call__] is
    found on its MRO. In Python 3.7 [classmethod], [staticmethod] and
    [property] objects are not callable. *)
Definition callable (h : heap) (x : ref) : bool :=
  match type_of h x with
  | Some t => bool_decide (is_Some (type_lookup h t "__call__"))
  | None => false
  end.

(** Binding of a class attribute accessed through the class
    ([attr.__get__(None, cls)]): a [classmethod] gives a new bound method
    on the class, a [staticmethod] gives the object it wraps, another
    descriptor does what its [binding] says; functions, properties,
    bound methods, slot wrappers, classes and plain values are returned
    as they are. [None] stands for [AttributeError]. *)
Definition descr_get (h : heap) (attr cls : ref) : option value :=
  match h !! attr with
  | Some (PyObj _ (BWrapped f)) =>
      if isinstance h attr classmethod then Some (Temp (PyObj method (BMethod f cls)))
      else if isinstance h attr staticmethod then Some (Ref f)
      else Some (Ref attr)
  | Some (PyObj _ (BDescriptor (Gives r))) => Some (Ref r)
  | Some (PyObj _ (BDescriptor (Makes t))) => Some (Temp (PyObj t BOpaque))
  | Some (PyObj _ (BDescriptor Fails)) => None
  | _ => Some (Ref attr)
  end.

(** [getattr(b, name)] on a class [b], as far as the namespaces on the
    MRO of [b] decide it: the name is searched on the MRO of [b] and the
    attribute found is bound through the class. [None] stands for
    [AttributeError]. The interpreter consults the metatype of [b] as
    well: a data descriptor that the metatype has under the name takes
    precedence, and what the metatype has is used when the MRO of [b]
    has nothing ([__call__], [mro], [__name__], ...). The lookups on
    which the two agree are those of [class_lookup_decides] below. *)
Definition getattr (h : heap) (b : ref) (name : string) : option value :=
  type_lookup h b name ≫= fun a => descr_get h a b.

Definition hasattr (h : heap) (b : ref) (name : string) : bool :=
  bool_decide (is_Some (getattr h b name)).

(** [type(v)]. *)
Definition value_type (h : heap) (v : value) : option ref :=
  match v with
  | Ref r => type_of h r
  | Temp o => Some (ob_type o)
  end.

(** [t.__name__] for the type of a value; the empty string when the value
    has no type in the store. *)
Definition type_name (h : heap) (t : option ref) : string :=
  match t with
  | Some t => class_name h t
  | None => ""
  end.

Definition get_store : M heap := fun h => Ok h h.

(** ** [repr] of a string and [%]-formatting

    A character is a code point below 256. [repr(name)] as CPython
    writes it: single quotes unless the text has a single quote and no
    double quote; the quote and the backslash escaped; tab, newline and
    carriage return as [\t], [\n], [\r]; the other characters that are
    not printable (the control characters below 32, 127 to 160, and the
    soft hyphen 173) as [\xhh]; printable characters copied. *)

Definition squote : ascii := ascii_of_nat 39.
Definition dquote : ascii := ascii_of_nat 34.
Definition backslash : ascii := ascii_of_nat 92.

Fixpoint contains (c : ascii) (s : string) : bool :=
  match s with
  | EmptyString => false
  | String c' s' => Ascii.eqb c c' || contains c s'
  end.

Definition hex_digit (n : nat) : ascii :=
  if Nat.ltb n 10 then ascii_of_nat (48 + n) else ascii_of_nat (87 + n).

Definition repr_char (quote c : ascii) : string :=
  let n := nat_of_ascii c in
  if Ascii.eqb c quote || Ascii.eqb c backslash then String backslash (String c EmptyString)
  else if Nat.eqb n 9 then String backslash "t"
  else if Nat.eqb n 10 then String backslash "n"
  else if Nat.eqb n 13 then String backslash "r"
  else if Nat.ltb n 32 || (Nat.leb 127 n && Nat.leb n 160) || Nat.eqb n 173 then
    String backslash
      (String "x" (String (hex_digit (n / 16)) (String (hex_digit (n mod 16)) EmptyString)))
  else String c EmptyString.

Fixpoint repr_chars (quote : ascii) (s : string) : string :=
  match s with
  | EmptyString => EmptyString
  | String c s' => repr_char quote c +:+ repr_chars quote s'
  end.

Definition repr (s : string) : string :=
  let quote := if contains squote s && negb (contains dquote s) then dquote else squote in
  String quote (repr_chars quote s +:+ String quote EmptyString).

(** ["no base of %s has attr %s" % (cls_name, repr(name))] *)
Definition no_base_msg (cls_name name : string) : string :=
  "no base of " +:+ cls_name +:+ " has attr " +:+ repr name.

(** ["attempt to override a %s object with a %s object" % (a, b)] *)
Definition mismatch_msg (a b : string) : string :=
  "attempt to override a " +:+ a +:+ " object with a " +:+ b +:+ " object".

(** ** The marker: class [override] (lines 4-33) *)

(** [self.__func__]: reading the slot; unset, it raises [AttributeError]. *)
Definition get___func__ (self : ref) : M ref :=
  fun h => match h !! self with
           | Some (PyObj _ (BSlots (Some f))) => Ok f h
           | _ => Raise (AttributeError "__func__") h
           end.

(** [self.__func__ = v]: the slot declared by [__slots__ = "__func__",]
    is an ordinary member descriptor, it can be written at any time. *)
Definition set___func__ (self v : ref) : M unit :=
  fun h => match h !! self with
           | Some (PyObj t (BSlots _)) => Ok tt (<[self := PyObj t (BSlots (Some v))]> h)
           | _ => Raise (AttributeError "__func__") h
           end.

(** [object.__new__(cls)] for a class with the layout of [override]: a new
    instance whose slot is not yet set. *)
Definition object___new__ (cls : ref) : M ref :=
  alloc (PyObj cls (BSlots None)).

(** [override.__new__(cls, func)], lines 22-27. *)
Definition override___new__ (cls func : ref) : M ref :=
  let* self := object___new__ cls in
  let* h := get_store in
  if negb (callable h func) &&
     negb (isinstance h func classmethod || isinstance h func staticmethod
           || isinstance h func property)
  then raise (ValueError "value of func parameter must be callable")
  else
    let* _ := set___func__ self func in
    ret self.

(** The result of a rich comparison method. *)
Inductive cmp_result :=
| NotImplemented
| PyBool (b : bool).

(** [override.__eq__(self, other)], lines 29-30. *)
Definition override___eq__ (self other : ref) : M cmp_result :=
  let* h := get_store in
  if negb (isinstance h other override) then ret NotImplemented
  else
    let* f := get___func__ self in
    let* g := get___func__ other in
    ret (PyBool (Nat.eqb f g)).

(** [del self.__func__] empties the slot; on an empty slot it raises
    [AttributeError]. *)
Definition del___func__ (self : ref) : M unit :=
  fun h => match h !! self with
           | Some (PyObj t (BSlots (Some _))) => Ok tt (<[self := PyObj t (BSlots None)]> h)
           | _ => Raise (AttributeError "__func__") h
           end.

Section Hash.
(** The interpreter's [hash] of an object (it raises [TypeError] on an
    unhashable one) and its combination of the hashes of a tuple's
    items are taken as given. *)
Variable hash : ref -> M Z.
Variable tuple_hash : list Z -> Z.

(** [override.__hash__(self)], lines 32-33: [hash((self.__func__,))]. *)
Definition override___hash__ (self : ref) : M Z :=
  let* f := get___func__ self in
  let* y := hash f in
  ret (tuple_hash [y]).
End Hash.

(** ** [type.__setattr__] and [type.__new__] *)

(** A positional argument of a call: a string or an object. *)
Inductive pyarg :=
| AStr (s : string)
| AObj (r : ref).

Definition arg_type_name (h : heap) (a : pyarg) : string :=
  match a with
  | AStr _ => "str"
  | AObj r => type_name h (type_of h r)
  end.

Definition not_a_type_msg (h : heap) (a : pyarg) : string :=
  "descriptor '__setattr__' requires a 'type' object but received a "
  +:+ repr (arg_type_name h a).

(** The plain function [type.__setattr__] applied to positional arguments:
    it wants a class, a name and a value, and stores the value in the
    namespace of the class. Names for which the metatype has a data
    descriptor ([__name__], [__bases__], ...) take another path, outside
    this model: [stores_in_namespace] below says when the name is
    stored. *)
Definition type___setattr__ (args : list pyarg) : M unit :=
  fun h =>
    match args with
    | [] => Raise (TypeError "descriptor '__setattr__' of 'type' object needs an argument") h
    | AObj cls :: rest =>
        match h !! cls with
        | Some (PyObj t (BClass n bs mro d)) =>
            match rest with
            | [AStr name; AObj value] =>
                Ok tt (<[cls := PyObj t (BClass n bs mro (dict_set name value d))]> h)
            | [AObj _; _] => Raise (TypeError "attribute name must be string") h
            | _ => Raise (TypeError "expected 2 arguments") h
            end
        | _ => Raise (TypeError (not_a_type_msg h (AObj cls))) h
        end
    | a :: _ => Raise (TypeError (not_a_type_msg h a)) h
    end.

(** C3 linearisation, as [type.mro] merges the MROs of the bases. *)
Definition head_ok (c : ref) (seqs : list (list ref)) : bool :=
  forallb (fun s => negb (mem c (tail s))) seqs.

Fixpoint find_candidate (todo seqs : list (list ref)) : option ref :=
  match todo with
  | [] => None
  | [] :: todo' => find_candidate todo' seqs
  | (c :: _) :: todo' => if head_ok c seqs then Some c else find_candidate todo' seqs
  end.

Definition drop_head (c : ref) (s : list ref) : list ref :=
  match s with
  | x :: s' => if Nat.eqb x c then s' else s
  | [] => []
  end.

Definition nonempty (s : list ref) : bool :=
  match s with [] => false | _ => true end.

Fixpoint c3_merge (fuel : nat) (seqs : list (list ref)) : option (list ref) :=
  match fuel with
  | 0 => None
  | S fuel' =>
      match List.filter nonempty seqs with
      | [] => Some []
      | live =>
          match find_candidate live live with
          | None => None
          | Some c => cons c <$> c3_merge fuel' (map (drop_head c) live)
          end
      end
  end.

Fixpoint has_dup (l : list ref) : bool :=
  match l with
  | [] => false
  | x :: l' => mem x l' || has_dup l'
  end.

Definition total_length (seqs : list (list ref)) : nat :=
  fold_right (fun s n => length s + n) 0 seqs.

(** The bases of a new class: [(object,)] when none is given. *)
Definition effective_bases (bases : list ref) : list ref :=
  match bases with [] => [object] | _ => bases end.

(** [type.__new__(mcls, name, bases, classdict)]: the bases default to
    [(object,)], must be classes, distinct, and admit a linearisation; the
    new class has type [mcls] and a copy of [classdict] as namespace.
    This is [type.__new__] when [mcls] is the most derived metaclass
    ([most_derived] below). Not modelled: [__slots__] and layout checks,
    the calls of [__set_name__] and [__init_subclass__], the registration
    of the class with its bases, the wrapping of a function [__new__],
    [__init_subclass__] or [__class_getitem__], and the entries the
    interpreter adds to the namespace ([__module__], [__dict__],
    [__weakref__], [__doc__]), none of which is an [override] instance.
    The properties below therefore speak of the namespace of the class
    as [type.__new__] left it, not of the class body. *)
Definition type___new__ (mcls : ref) (name : string) (bases : list ref)
    (classdict : pydict) : M ref :=
  fun h =>
    let bases := effective_bases bases in
    if negb (forallb (is_class h) bases) then
      Raise (TypeError "bases must be types") h
    else if has_dup bases then
      Raise (TypeError "duplicate base class") h
    else
      let seqs := map (class_mro h) bases ++ [bases] in
      match c3_merge (S (total_length seqs)) seqs with
      | None => Raise (TypeError "Cannot create a consistent method resolution order (MRO)") h
      | Some tl =>
          let cls := length h in
          Ok cls (h ++ [PyObj mcls (BClass name bases (cls :: tl) classdict)])
      end.

(** ** The metaclass [OverridesMeta] (lines 40-67) *)

(** The [for b in cls.__bases__: ... break ... else: raise] loop of lines
    51-56: the attribute of the first base that has the name, [None] when
    the loop runs to its [else] branch. *)
Fixpoint find_overriden (h : heap) (bases : list ref) (name : string) : option value :=
  match bases with
  | [] => None
  | b :: bases' =>
      if hasattr h b name then getattr h b name
      else find_overriden h bases' name
  end.

(** The [kind] of lines 58-60, from the member [func] a marker wraps. *)
Definition kind_of (h : heap) (func : ref) : option ref :=
  if isinstance h func staticmethod then Some function
  else if isinstance h func classmethod then Some method
  else type_of h func.

(** [OverridesMeta.__setattr__(cls, name, value)], lines 49-67.
    [super().__setattr__] is [type.__setattr__] bound to [cls]. *)
Definition OverridesMeta___setattr__ (cls : ref) (name : string) (value : ref) : M unit :=
  let* h := get_store in
  if isinstance h value override then
    match find_overriden h (class_bases h cls) name with
    | None => raise (OverrideError (no_base_msg (class_name h cls) name))
    | Some overriden =>
        let* func := get___func__ value in
        let kind := kind_of h func in
        if negb (bool_decide (value_type h overriden = kind)) then
          raise (OverrideError (mismatch_msg (type_name h (value_type h overriden))
                                             (type_name h (type_of h func))))
        else
          type___setattr__ [AObj cls; AStr name; AObj func]
    end
  else type___setattr__ [AObj cls; AStr name; AObj value].

(** The loop [for key, value in cls.__dict__.items(): ...] of lines 44-46
    and 80-82. It walks the live namespace of the class: at each step the
    entry at the current position is read from the store, and a namespace
    whose size changed stops the iteration with [RuntimeError], as dict
    iterators do. [setattr] is the [__setattr__] of the type of [cls], to
    which the builtin [setattr(cls, key, value)] dispatches. *)
Fixpoint scan_items (setattr : ref -> string -> ref -> M unit)
    (cls : ref) (used pos n : nat) : M unit :=
  match n with
  | 0 => ret tt
  | S n' =>
      let* h := get_store in
      let d := class_dict h cls in
      if negb (Nat.eqb (length d) used) then
        raise (RuntimeError "dictionary changed size during iteration")
      else
        match d !! pos with
        | None => ret tt
        | Some (key, value) =>
            let* _ := (if isinstance h value override then setattr cls key value
                       else ret tt) in
            scan_items setattr cls used (S pos) n'
        end
  end.

Definition scan (setattr : ref -> string -> ref -> M unit) (cls : ref) : M unit :=
  let* h := get_store in
  let used := length (class_dict h cls) in
  scan_items setattr cls used 0 used.

(** The builtin [setattr(cls, key, value)]: a call of the [__setattr__]
    that the type of [cls] resolves, here [type_setattr], with the three
    positional arguments. *)
Definition setattr (type_setattr : list pyarg -> M unit)
    (cls : ref) (key : string) (value : ref) : M unit :=
  type_setattr [AObj cls; AStr key; AObj value].

(** [OverridesMeta.__new__(mcls, name, bases, classdict)], lines 42-47.
    The new class has type [mcls]; [type_setattr] is the [__setattr__]
    that [mcls] resolves: [OverridesMeta.__setattr__] itself, or what a
    metaclass derived from [OverridesMeta] defines instead. *)
Definition OverridesMeta___new__ (type_setattr : list pyarg -> M unit)
    (mcls : ref) (name : string) (bases : list ref) (classdict : pydict) : M ref :=
  let* cls := type___new__ mcls name bases classdict in
  let* _ := scan (setattr type_setattr) cls in
  ret cls.

(** ** Construction hooks and [create_custom_overrides_meta] (lines 74-107)

    A metaclass, as far as class construction uses it: its name and
    docstring, its [__new__], and its [__setattr__] as the plain function
    found on the class, applied to the positional arguments of a call.
    [__new__] receives, before [mcls], the [__setattr__] that [mcls]
    resolves, for the calls of [setattr] on the class it creates. *)
Record hook := Hook {
  hook___name__ : string;
  hook___doc__ : option string;
  hook___new__ : (list pyarg -> M unit) -> ref -> string -> list ref -> pydict -> M ref;
  hook___setattr__ : list pyarg -> M unit
}.

(** The builtin metaclass [type]. *)
Definition type_hook : hook :=
  Hook "type" None (fun _ => type___new__) type___setattr__.

(** A function [def __setattr__(cls, name, value)] applied to positional
    arguments. *)
Definition def___setattr__ (f : ref -> string -> ref -> M unit) (args : list pyarg) : M unit :=
  match args with
  | [AObj cls; AStr name; AObj value] => f cls name value
  | [_; _; _] => raise (TypeError "attribute name must be string")
  | [_; _] =>
      raise (TypeError "__setattr__() missing 1 required positional argument: 'value'")
  | _ => raise (TypeError "__setattr__() takes 3 positional arguments")
  end.

Definition OverridesMeta_hook : hook :=
  Hook "OverridesMeta" (Some "Metaclass to support usage of the override decorator")
       OverridesMeta___new__ (def___setattr__ OverridesMeta___setattr__).

Section Factory.
(** The argument [mcls] of [create_custom_overrides_meta], bound to the
    local name [metaclass] at line 75. *)
Variable metaclass : hook.

(** [Meta.__setattr__(cls, name, value)], lines 85-103. The last line
    calls [metaclass.__setattr__(name, value)]: the function looked up
    on the class [metaclass], with two positional arguments. *)
Definition Meta___setattr__ (cls : ref) (name : string) (value : ref) : M unit :=
  let* h := get_store in
  if isinstance h value override then
    match find_overriden h (class_bases h cls) name with
    | None => raise (OverrideError (no_base_msg (class_name h cls) name))
    | Some overriden =>
        let* func := get___func__ value in
        let kind := kind_of h func in
        if negb (bool_decide (value_type h overriden = kind)) then
          raise (OverrideError (mismatch_msg (type_name h (value_type h overriden))
                                             (type_name h (type_of h func))))
        else
          hook___setattr__ metaclass [AStr name; AObj func]
    end
  else hook___setattr__ metaclass [AStr name; AObj value].

(** [Meta.__new__(mcls, name, bases, classdict)], lines 78-83. *)
Definition Meta___new__ (type_setattr : list pyarg -> M unit)
    (mcls : ref) (name : string) (bases : list ref) (classdict : pydict) : M ref :=
  let* cls := hook___new__ metaclass type_setattr mcls name bases classdict in
  let* _ := scan (setattr type_setattr) cls in
  ret cls.

(** [create_custom_overrides_meta(mcls, *, name=None, doc=None)]. *)
Definition create_custom_overrides_meta (name doc : option string) : hook :=
  Hook (match name with
        | Some n => n
        | None => "Overrides" +:+ hook___name__ metaclass
        end)
       doc
       Meta___new__
       (def___setattr__ Meta___setattr__).
End Factory.

(** ** Calling a metaclass, and the [class] statement

    [mc(name, bases, classdict)] for a metaclass [mc] whose class object
    is [mcls]: [mc.__new__(mcls, name, bases, classdict)], where
    [setattr] on the new class resolves the [__setattr__] of [mc]. *)
Definition construct (mc : hook) (mcls : ref) (name : string)
    (bases : list ref) (classdict : pydict) : M ref :=
  hook___new__ mc (hook___setattr__ mc) mcls name bases classdict.


(** ** The store after [import]

    The classes of the fixed references and the builtin types of their
    members, with their namespaces as CPython 3.7 has them: the names of
    [object] and of [type], the [__get__], [__set__], [__delete__] and
    [__call__] of the descriptor and callable types, and the members of
    the three classes of the module. *)

Definition wrapper_descriptor : ref := 10.
Definition NoneType : ref := 11.
Definition py_None : ref := 12.
Definition str : ref := 30.
Definition tuple : ref := 31.
Definition getset_descriptor : ref := 32.
Definition member_descriptor : ref := 33.
Definition method_descriptor : ref := 34.
Definition classmethod_descriptor : ref := 35.
Definition builtin_function_or_method : ref := 36.

Definition builtin_class (name : string) (self : ref) (d : pydict) : pyobj :=
  PyObj type (BClass name [object] [self; object] d).

Definition slot_wrapper : pyobj := PyObj wrapper_descriptor BOpaque.

(** A builtin classmethod ([object.__init_subclass__], [type.__prepare__]):
    read through a class it gives a new builtin method. *)
Definition builtin_classmethod : pyobj :=
  PyObj classmethod_descriptor (BDescriptor (Makes builtin_function_or_method)).

Definition object_dict : pydict :=
  [("__repr__", 13); ("__hash__", 14); ("__str__", 15); ("__getattribute__", 16);
   ("__setattr__", 17); ("__delattr__", 18); ("__lt__", 19); ("__le__", 20);
   ("__eq__", 21); ("__ne__", 22); ("__gt__", 23); ("__ge__", 24); ("__init__", 25);
   ("__new__", 61); ("__reduce_ex__", 62); ("__reduce__", 63);
   ("__subclasshook__", 64); ("__init_subclass__", 65); ("__format__", 66);
   ("__sizeof__", 67); ("__dir__", 68); ("__class__", 69); ("__doc__", 70)].

Definition type_dict : pydict :=
  [("__repr__", 56); ("__call__", 26); ("__getattribute__", 57); ("__setattr__", 58);
   ("__delattr__", 59); ("__init__", 60); ("__new__", 71); ("mro", 72);
   ("__subclasses__", 73); ("__prepare__", 74); ("__instancecheck__", 75);
   ("__subclasscheck__", 76); ("__dir__", 77); ("__sizeof__", 78);
   ("__basicsize__", 79); ("__itemsize__", 80); ("__flags__", 81);
   ("__weakrefoffset__", 82); ("__base__", 83); ("__dictoffset__", 84);
   ("__mro__", 85); ("__name__", 86); ("__qualname__", 87); ("__bases__", 88);
   ("__module__", 89); ("__abstractmethods__", 90); ("__dict__", 91);
   ("__doc__", 92); ("__text_signature__", 93)].

(** The namespaces of [override], [OverridesMeta] and [OverridesBase], as
    their class statements leave them (lines 4-33, 40-67, 69-71). *)
Definition override_dict : pydict :=
  [("__module__", 94); ("__doc__", 95); ("__slots__", 96); ("__new__", 97);
   ("__eq__", 99); ("__hash__", 100); ("__func__", 101)].

Definition OverridesMeta_dict : pydict :=
  [("__module__", 94); ("__doc__", 102); ("__new__", 103); ("__setattr__", 105)].

Definition OverridesBase_dict : pydict :=
  [("__module__", 94); ("__doc__", 106); ("__slots__", 107)].

Definition builtins : heap :=
  [ PyObj type (BClass "object" [] [object] object_dict);
    builtin_class "type" type type_dict;
    builtin_class "function" function [("__call__", 27); ("__get__", 37)];
    builtin_class "method" method [("__call__", 28); ("__get__", 38)];
    builtin_class "classmethod" classmethod [("__get__", 39)];
    builtin_class "staticmethod" staticmethod [("__get__", 40)];
    builtin_class "property" property
      [("__get__", 41); ("__set__", 42); ("__delete__", 43)];
    builtin_class "override" override override_dict;
    PyObj type (BClass "OverridesMeta" [type] [OverridesMeta; type; object]
                  OverridesMeta_dict);
    PyObj OverridesMeta (BClass "OverridesBase" [object] [OverridesBase; object]
                           OverridesBase_dict);
    builtin_class "wrapper_descriptor" wrapper_descriptor
      [("__call__", 29); ("__get__", 44)];
    builtin_class "NoneType" NoneType [];
    PyObj NoneType BOpaque ]
  (* 13 to 29: the slot wrappers of [object] and the [__call__] of [type],
     [function], [method] and [wrapper_descriptor] *)
  ++ repeat slot_wrapper 17
  ++ [ builtin_class "str" str [];
       builtin_class "tuple" tuple [];
       builtin_class "getset_descriptor" getset_descriptor
         [("__get__", 45); ("__set__", 46); ("__delete__", 47)];
       builtin_class "member_descriptor" member_descriptor
         [("__get__", 48); ("__set__", 49); ("__delete__", 50)];
       builtin_class "method_descriptor" method_descriptor
         [("__get__", 51); ("__call__", 52)];
       builtin_class "classmethod_descriptor" classmethod_descriptor
         [("__get__", 53); ("__call__", 54)];
       builtin_class "builtin_function_or_method" builtin_function_or_method
         [("__call__", 55)] ]
  (* 37 to 60: the slot wrappers of the descriptor types and of [type] *)
  ++ repeat slot_wrapper 24
  (* 61 to 70: the other members of [object] *)
  ++ [ PyObj builtin_function_or_method BOpaque;
       PyObj method_descriptor BOpaque;
       PyObj method_descriptor BOpaque;
       builtin_classmethod;
       builtin_classmethod;
       PyObj method_descriptor BOpaque;
       PyObj method_descriptor BOpaque;
       PyObj method_descriptor BOpaque;
       PyObj getset_descriptor BOpaque;
       PyObj str BOpaque ]
  (* 71 to 93: the other members of [type] *)
  ++ [ PyObj builtin_function_or_method BOpaque;
       PyObj method_descriptor BOpaque;
       PyObj method_descriptor BOpaque;
       builtin_classmethod ]
  ++ repeat (PyObj method_descriptor BOpaque) 4
  ++ repeat (PyObj member_descriptor BOpaque) 7
  ++ repeat (PyObj getset_descriptor BOpaque) 8
  (* 94 to 107: the members of [override], [OverridesMeta], [OverridesBase] *)
  ++ [ PyObj str BOpaque;
       PyObj str BOpaque;
       PyObj tuple BOpaque;
       PyObj staticmethod (BWrapped 98);
       PyObj function (BFunction "__new__");
       PyObj function (BFunction "__eq__");
       PyObj function (BFunction "__hash__");
       PyObj member_descriptor BOpaque;
       PyObj str BOpaque;
       PyObj staticmethod (BWrapped 104);
       PyObj function (BFunction "__new__");
       PyObj function (BFunction "__setattr__");
       PyObj str BOpaque;
       PyObj tuple BOpaque ].

(** ** The scenario of [main()] (lines 117-187) *)

Module Main.

(** [def name(...): ...] *)
Definition def (name : string) : M ref := alloc (PyObj function (BFunction name)).

(** [classmethod(f)], [staticmethod(f)], [property(f)], [method(f, self)] *)
Definition new_classmethod (f : ref) : M ref := alloc (PyObj classmethod (BWrapped f)).
Definition new_staticmethod (f : ref) : M ref := alloc (PyObj staticmethod (BWrapped f)).
Definition new_property (f : ref) : M ref := alloc (PyObj property (BProperty (Some f))).
Definition new_method (f self : ref) : M ref := alloc (PyObj method (BMethod f self)).

(** The body of [class A(OverridesBase)], lines 118-139. *)
Definition body_A : M pydict :=
  let* init := def "__init__" in
  let* b := def "b" in
  let* c := def "c" in
  let* d0 := def "d" in
  let* d := new_classmethod d0 in
  let* e0 := def "e" in
  let* e := new_property e0 in
  ret [("__init__", init); ("b", b); ("c", c); ("d", d); ("e", e)].

(** [class A(OverridesBase)], then line 141, [A.b = method(A.b, type)]. *)
Definition class_A : M ref :=
  let* ns := body_A in
  let* A := construct OverridesMeta_hook OverridesMeta "A" [OverridesBase] ns in
  let* m := new_method (default 0 (dict_get "b" ns)) type in
  let* _ := OverridesMeta___setattr__ A "b" m in
  ret A.

(** The body of [class B(A)]: [b] overridden by a plain function. *)
Definition body_B : M pydict :=
  let* b := def "b" in
  let* w := override___new__ override b in
  ret [("b", w)].

(** The body of [class C(A)]: [__init__] and [c] overridden by plain
    functions. *)
Definition body_C : M pydict :=
  let* init := def "__init__" in
  let* wi := override___new__ override init in
  let* c := def "c" in
  let* wc := override___new__ override c in
  ret [("__init__", wi); ("c", wc)].

(** The body of [class D(A)]: [d] overridden by a classmethod. *)
Definition body_D : M pydict :=
  let* d0 := def "d" in
  let* d := new_classmethod d0 in
  let* w := override___new__ override d in
  ret [("d", w)].

(** The body of [class E(A)]: [e] overridden by a property. *)
Definition body_E : M pydict :=
  let* e0 := def "e" in
  let* e := new_property e0 in
  let* w := override___new__ override e in
  ret [("e", w)].

(** The body of [class F(A)]: [b] overridden by a classmethod. *)
Definition body_F : M pydict :=
  let* b0 := def "b" in
  let* b := new_classmethod b0 in
  let* w := override___new__ override b in
  ret [("b", w)].

(** [class name(A): body], built by the default hook. *)
Definition subclass (name : string) (A : ref) (body : M pydict) : M ref :=
  let* ns := body in
  construct OverridesMeta_hook OverridesMeta name [A] ns.

(** The body of a class that overrides the function [c] by a
    staticmethod. *)
Definition body_G : M pydict :=
  let* c0 := def "c" in
  let* c := new_staticmethod c0 in
  let* w := override___new__ override c in
  ret [("c", w)].

(** The body of a class that overrides [__eq__], which [A] inherits from
    [object], by a function. *)
Definition body_H : M pydict :=
  let* eq := def "__eq__" in
  let* w := override___new__ override eq in
  ret [("__eq__", w)].

(** The body of [class X(A)]: [x], which no base has, marked; then [c],
    a function in [A], overridden by a classmethod. *)
Definition body_X : M pydict :=
  let* x := def "x" in
  let* wx := override___new__ override x in
  let* c0 := def "c" in
  let* c := new_classmethod c0 in
  let* wc := override___new__ override c in
  ret [("x", wx); ("c", wc)].



(** A run from the store after [import]: its outcome (the value or the
    exception), its final store, and its value when it returns one. *)
Definition outcome {T} (m : M T) : T + exn :=
  match m builtins with
  | Ok a _ => inl a
  | Raise e _ => inr e
  end.

Definition after {T} (m : M T) : heap := store_of (m builtins).

(** The attributes of the class a run builds, each with the name of its
    type, or the exception the run raises. *)
Definition attribute_types (m : M ref) : list (string * string) + exn :=
  match m builtins with
  | Ok cls h => inl (map (fun '(k, v) => (k, type_name h (type_of h v))) (class_dict h cls))
  | Raise e _ => inr e
  end.

Definition value_of {T} (dflt : T) (m : M T) : T :=
  match m builtins with
  | Ok a _ => a
  | Raise _ _ => dflt
  end.

(** The store and the namespace when the class statement of a subclass of
    [A] is about to call the hook. *)
Definition before (body : M pydict) : heap := after (let* _ := class_A in body).
Definition namespace (body : M pydict) : pydict :=
  value_of [] (let* _ := class_A in body).
Definition A : ref := value_of 0 class_A.


(** A diamond: [X] defines [f] as a function, [Y(X)] inherits it, [Z(X)]
    redefines it as a property; [W(Y, Z)] has the MRO [W, Y, Z, X]. *)
Definition diamond : M (ref * ref * ref) :=
  let* f := def "f" in
  let* X := type___new__ OverridesMeta "X" [] [("f", f)] in
  let* Y := type___new__ OverridesMeta "Y" [X] [] in
  let* g := def "f" in
  let* p := new_property g in
  let* Z := type___new__ OverridesMeta "Z" [X] [("f", p)] in
  let* W := type___new__ OverridesMeta "W" [Y; Z] [] in
  ret (Y, Z, W).

(** The class object of a hook the factory produces: a metaclass
    derived from [type]. *)
Definition new_metaclass (name : string) : M ref :=
  fun h => alloc (PyObj type (BClass name [type] [length h; type; object] [])) h.

(** [class A(metaclass=mc): def c ...] and then [class B(A): @override
    def c ...], under a hook [mc] whose class object is [mcls]. *)
Definition override_c (mc : hook) (mcls : ref) : M ref :=
  let* c := def "c" in
  let* A := construct mc mcls "A" [] [("c", c)] in
  let* c' := def "c" in
  let* w := override___new__ override c' in
  construct mc mcls "B" [A] [("c", w)].

(** Rebinding a wrapper: [w = override(f); w.__func__ = g]. The result
    tells whether [w] wraps [f] before, and [g] after, the assignment. *)
Definition rebind : M (bool * bool) :=
  let* f := def "f" in
  let* g := def "g" in
  let* w := override___new__ override f in
  let* m1 := get___func__ w in
  let* _ := set___func__ w g in
  let* m2 := get___func__ w in
  ret (Nat.eqb m1 f, Nat.eqb m2 g).

End Main.

(** ** Well-formed stores

    A store is closed when every reference held by one of its objects
    points into it; it is well formed when, besides, the classes the
    module names are there. *)

Definition refs_of (o : pyobj) : list ref :=
  ob_type o ::
  match ob_body o with
  | BClass _ bs mro d => bs ++ mro ++ map snd d
  | BMethod f s => [f; s]
  | BWrapped f => [f]
  | BProperty (Some f) => [f]
  | BSlots (Some f) => [f]
  | BDescriptor (Gives r) => [r]
  | BDescriptor (Makes t) => [t]
  | _ => []
  end.

Definition below (n : nat) (l : list ref) : bool :=
  forallb (fun r => Nat.ltb r n) l.

Definition closed (h : heap) : bool :=
  forallb (fun o => below (length h) (refs_of o)) h.

Definition module_names : list ref :=
  [object; type; function; method; classmethod; staticmethod; property; override].

(** The MRO of a class starts with the class itself. *)
Definition mro_head_ok (c : ref) (o : pyobj) : bool :=
  match ob_body o with
  | BClass _ _ (k :: _) _ => Nat.eqb k c
  | BClass _ _ [] _ => false
  | _ => true
  end.

Definition wf_store (h : heap) : bool :=
  closed h && forallb (is_class h) module_names
  && forallb (fun '(c, o) => mro_head_ok c o) (imap pair h).

(** [cls.__dict__] replaced by [d]. *)
Definition set_dict (cls : ref) (d : pydict) (h : heap) : heap :=
  match h !! cls with
  | Some (PyObj t (BClass n bs mro _)) => <[cls := PyObj t (BClass n bs mro d)]> h
  | _ => h
  end.

(** The keys of a namespace are pairwise distinct, as in any dict. *)
Fixpoint distinct_keys (d : pydict) : bool :=
  match d with
  | [] => true
  | (k, _) :: d' => negb (bool_decide (is_Some (dict_get k d'))) && distinct_keys d'
  end.

(** Every class of the store descends from [object]: [object] is on its
    MRO, and a class other than [object] has a first base, a class. *)
Definition rooted_obj (h : heap) (c : ref) (o : pyobj) : bool :=
  match ob_body o with
  | BClass _ bs mro _ =>
      mem object mro &&
      (Nat.eqb c object || match bs with b :: _ => is_class h b | [] => false end)
  | _ => true
  end.

Definition rooted (h : heap) : bool :=
  forallb (fun '(c, o) => rooted_obj h c o) (imap pair h).

(** ** The validation routine as a function of the store

    What lines 50-66 compute before the final assignment: the member to
    install under [name], or the exception raised. *)
Definition slot (h : heap) (w : ref) : option ref :=
  match h !! w with
  | Some (PyObj _ (BSlots f)) => f
  | _ => None
  end.

Definition validate (h : heap) (cls_name : string) (bases : list ref)
    (name : string) (value : ref) : exn + ref :=
  if isinstance h value override then
    match find_overriden h bases name with
    | None => inl (OverrideError (no_base_msg cls_name name))
    | Some overriden =>
        match slot h value with
        | None => inl (AttributeError "__func__")
        | Some func =>
            if bool_decide (value_type h overriden = kind_of h func) then inr func
            else inl (OverrideError (mismatch_msg (type_name h (value_type h overriden))
                                                  (type_name h (type_of h func))))
        end
    end
  else inr value.

(** The namespace the scan leaves behind, and the exception that stopped
    it if any: entries are validated in order, the first failure ends the
    scan with the entries before it already replaced. *)
Fixpoint install (h : heap) (cls_name : string) (bases : list ref) (d : pydict)
    : pydict * option exn :=
  match d with
  | [] => ([], None)
  | (k, v) :: d' =>
      match validate h cls_name bases k v with
      | inl e => ((k, v) :: d', Some e)
      | inr v' =>
          let '(r, e) := install h cls_name bases d' in
          ((k, v') :: r, e)
      end
  end.

(** The member a namespace entry stands for: what a marker wraps, or the
    value itself. *)
Definition unwrap (h : heap) (v : ref) : ref :=
  if isinstance h v override then default v (slot h v) else v.

(** A namespace with every marker replaced by the member it wraps. *)
Definition unwrap_dict (h : heap) (d : pydict) : pydict :=
  map (fun '(k, v) => (k, unwrap h v)) d.


(** The argument check of [override.__new__]. *)
Definition valid_member (h : heap) (func : ref) : bool :=
  callable h func || isinstance h func classmethod || isinstance h func staticmethod
  || isinstance h func property.

(** What a class exposes is an object below the frontier [n] of the
    store, or a temporary whose type is below it. *)
Definition value_below (n : nat) (v : value) : Prop :=
  match v with
  | Ref r => r < n
  | Temp o => ob_type o < n
  end.

(** The store [h] with a class under construction on top of it. *)
Definition with_class (h : heap) (mcls : ref) (name : string) (bases mro : list ref)
    (d : pydict) : heap :=
  h ++ [PyObj mcls (BClass name bases mro d)].



Definition no_marker (h : heap) (d : pydict) : bool :=
  forallb (fun '(_, v) => negb (isinstance h v override)) d.

Definition values_below (n : nat) (d : pydict) : bool := below n (map snd d).


(** ** [main()] as a whole (lines 117-187)

    What [main()] writes to standard output. Each class statement after
    [A] stands in a [try] whose handler catches [Exception], of which
    every exception here is an instance, and prints the name of its type,
    a label and the exception itself. *)

(** [type(e).__name__] and [str(e)] for an exception raised with one
    message. *)
Definition exn_name (e : exn) : string :=
  match e with
  | ValueError _ => "ValueError"
  | TypeError _ => "TypeError"
  | AttributeError _ => "AttributeError"
  | RuntimeError _ => "RuntimeError"
  | OverrideError _ => "OverrideError"
  end.

Definition exn_str (e : exn) : string :=
  match e with
  | ValueError m | TypeError m | AttributeError m | RuntimeError m | OverrideError m => m
  end.

(** [try: class ... except Exception as e: print(type(e).__name__, label, e)]:
    the lines printed, the arguments of [print] separated by a space. *)
Definition try_class (label : string) (statement : M ref) : M (list string) :=
  fun h =>
    match statement h with
    | Ok _ h' => Ok [] h'
    | Raise e h' => Ok [exn_name e +:+ " " +:+ label +:+ " " +:+ exn_str e] h'
    end.

Definition main : M (list string) :=
  let* A := Main.class_A in
  let* out_B := try_class "raised while overriding method 'b' via class B:"
                  (Main.subclass "B" A Main.body_B) in
  let* out_C := try_class "raised while overriding function 'c':"
                  (Main.subclass "C" A Main.body_C) in
  let* out_D := try_class "raised while overriding classmethod 'd':"
                  (Main.subclass "D" A Main.body_D) in
  let* out_E := try_class "raised while overriding property 'e':"
                  (Main.subclass "E" A Main.body_E) in
  let* out_F := try_class "raised while overriding method 'b' via class F:"
                  (Main.subclass "F" A Main.body_F) in
  ret (out_B ++ out_C ++ out_D ++ out_E ++ out_F).

(** ** Inputs for the examples *)

Module Inputs.
Import Main.

(** Two wrappers around the function [c] of [A]. *)
Definition two_wrappers : M (ref * ref) :=
  let* A := class_A in
  let* h := get_store in
  let c := default 0 (dict_get "c" (class_dict h A)) in
  let* w1 := override___new__ override c in
  let* w2 := override___new__ override c in
  ret (w1, w2).







End Inputs.

(** ** The reach of the model of the interpreter

    [getattr], [type___setattr__] and [type___new__] follow the
    interpreter where the metatype does not intervene. The predicates
    below say when that is, in terms of the store. *)










(* ================================================================= *)
(** * Properties *)

(** ** Namespaces *)



Lemma dict_set_keys k v (d : pydict) :
  is_Some (dict_get k d) -> (dict_set k v d).*1 = d.*1.
Proof.
  induction d as [|[k' v'] d IH]; simpl.
  - intros [? [=]].
  - destruct (String.eqb k k') eqn:E; [done|].
    intros H. rewrite !fmap_cons. f_equal. by apply IH.
Qed.

Lemma dict_set_length k v (d : pydict) :
  is_Some (dict_get k d) -> length (dict_set k v d) = length d.
Proof.
  intros H. pose proof (f_equal length (dict_set_keys k v d H)) as E.
  by rewrite !length_fmap in E.
Qed.

Lemma dict_get_Some_elem k v (d : pydict) : dict_get k d = Some v -> (k, v) ∈ d.
Proof.
  induction d as [|[k' v'] d IH]; simpl; [done|].
  destruct (String.eqb k k') eqn:E.
  - apply String.eqb_eq in E. intros [= ->]. subst. left.
  - intros H. right. by apply IH.
Qed.

Lemma dict_get_None_notin k (d : pydict) : dict_get k d = None -> forall v, (k, v) ∉ d.
Proof.
  induction d as [|[k' v'] d IH]; simpl; intros H v Hin.
  - by apply not_elem_of_nil in Hin.
  - destruct (String.eqb k k') eqn:E; [done|].
    apply elem_of_cons in Hin as [[= -> ->]|Hin].
    + by rewrite String.eqb_refl in E.
    + by eapply IH.
Qed.


(** Writing the key of the entry in the middle replaces that entry. *)
Lemma dict_set_middle k v v' (pre post : pydict) :
  dict_get k pre = None ->
  dict_set k v' (pre ++ (k, v) :: post) = pre ++ (k, v') :: post.
Proof.
  induction pre as [|[k0 v0] pre IH]; simpl.
  - by rewrite String.eqb_refl.
  - destruct (String.eqb k k0); [done|]. intros H. by rewrite IH.
Qed.

(** ** Closed stores *)

Lemma mem_elem x l : mem x l = true <-> x ∈ l.
Proof.
  induction l as [|y l IH]; simpl.
  - split; [done | intros H; by apply not_elem_of_nil in H].
  - rewrite orb_true_iff, Nat.eqb_eq, IH, elem_of_cons. tauto.
Qed.

Lemma below_elem n l : below n l = true <-> forall r, r ∈ l -> r < n.
Proof.
  unfold below. rewrite forallb_forall. split; intros H r Hr.
  - apply Nat.ltb_lt, H. by apply list_elem_of_In.
  - apply Nat.ltb_lt, H. by apply list_elem_of_In.
Qed.

Lemma closed_refs h x o r :
  closed h = true -> h !! x = Some o -> r ∈ refs_of o -> r < length h.
Proof.
  unfold closed. rewrite forallb_forall. intros Hc Hx Hr.
  apply list_elem_of_lookup_2, list_elem_of_In in Hx.
  specialize (Hc _ Hx). rewrite below_elem in Hc. by apply Hc.
Qed.

Lemma wf_store_closed h : wf_store h = true -> closed h = true.
Proof. unfold wf_store. by intros [[? _]%andb_true_iff _]%andb_true_iff. Qed.

Lemma wf_store_names h c : wf_store h = true -> c ∈ module_names -> is_class h c = true.
Proof.
  unfold wf_store. intros [[_ H]%andb_true_iff _]%andb_true_iff Hc.
  rewrite forallb_forall in H. by apply H, list_elem_of_In.
Qed.

Lemma is_class_lt h c : is_class h c = true -> c < length h.
Proof.
  unfold is_class. destruct (h !! c) eqn:E; [|done].
  intros _. by eapply lookup_lt_Some.
Qed.

(** ** Framing: reads below the frontier do not see what lies above it *)

Section Frame.
Variables h h' : heap.
Hypothesis Hclosed : closed h = true.
Hypothesis Hagree : forall x, x < length h -> h' !! x = h !! x.

Lemma frame_type_of x : x < length h -> type_of h' x = type_of h x.
Proof. intros Hx. unfold type_of. by rewrite Hagree. Qed.

Lemma frame_is_class c : c < length h -> is_class h' c = is_class h c.
Proof. intros Hx. unfold is_class. by rewrite Hagree. Qed.

Lemma frame_class_name c : c < length h -> class_name h' c = class_name h c.
Proof. intros Hx. unfold class_name. by rewrite Hagree. Qed.

Lemma frame_class_mro c : c < length h -> class_mro h' c = class_mro h c.
Proof. intros Hx. unfold class_mro. by rewrite Hagree. Qed.

Lemma frame_class_dict c : c < length h -> class_dict h' c = class_dict h c.
Proof. intros Hx. unfold class_dict. by rewrite Hagree. Qed.

Lemma frame_slot w : w < length h -> slot h' w = slot h w.
Proof. intros Hx. unfold slot. by rewrite Hagree. Qed.

Lemma type_of_lt x t : type_of h x = Some t -> t < length h.
Proof.
  unfold type_of. destruct (h !! x) as [o|] eqn:E; [|done].
  intros [= <-]. eapply closed_refs; [done..|]. unfold refs_of. left.
Qed.

Lemma class_mro_lt c k : k ∈ class_mro h c -> k < length h.
Proof.
  unfold class_mro. destruct (h !! c) as [[t []]|] eqn:E;
    try (intros H; by apply not_elem_of_nil in H).
  intros Hk. eapply closed_refs; [done..|].
  unfold refs_of; simpl. right. rewrite !elem_of_app. auto.
Qed.

Lemma class_dict_lt c k v : dict_get k (class_dict h c) = Some v -> v < length h.
Proof.
  unfold class_dict. destruct (h !! c) as [[t []]|] eqn:E; try done.
  intros Hk%dict_get_Some_elem. eapply closed_refs; [done..|].
  unfold refs_of; simpl. right. rewrite !elem_of_app. right; right.
  apply list_elem_of_fmap. by exists (k, v).
Qed.

Lemma frame_isinstance x c : x < length h -> isinstance h' x c = isinstance h x c.
Proof.
  intros Hx. unfold isinstance. rewrite frame_type_of by done.
  destruct (type_of h x) as [t|] eqn:E; [|done].
  unfold issubclass. by rewrite frame_class_mro by (by eapply type_of_lt).
Qed.

Lemma frame_mro_lookup mro name :
  (forall k, k ∈ mro -> k < length h) ->
  mro_lookup h' mro name = mro_lookup h mro name.
Proof.
  induction mro as [|k mro IH]; simpl; [done|]. intros H.
  rewrite frame_class_dict by (apply H; left).
  rewrite IH; [done|]. intros k' Hk'. apply H. by right.
Qed.

Lemma frame_type_lookup t name :
  t < length h -> type_lookup h' t name = type_lookup h t name.
Proof.
  intros Ht. unfold type_lookup. rewrite frame_class_mro by done.
  apply frame_mro_lookup. intros k. apply class_mro_lt.
Qed.

Lemma mro_lookup_lt mro name v :
  mro_lookup h mro name = Some v -> v < length h.
Proof.
  induction mro as [|k mro IH]; simpl; [done|].
  destruct (dict_get name (class_dict h k)) eqn:E; [|done].
  intros [= <-]. by eapply class_dict_lt.
Qed.

Lemma frame_callable x : x < length h -> callable h' x = callable h x.
Proof.
  intros Hx. unfold callable. rewrite frame_type_of by done.
  destruct (type_of h x) as [t|] eqn:E; [|done].
  by rewrite frame_type_lookup by (by eapply type_of_lt).
Qed.


Lemma frame_descr_get attr cls :
  attr < length h -> descr_get h' attr cls = descr_get h attr cls.
Proof.
  intros Hx. unfold descr_get. rewrite Hagree by done.
  by rewrite !frame_isinstance by done.
Qed.

Lemma frame_getattr b name : b < length h -> getattr h' b name = getattr h b name.
Proof.
  intros Hb. unfold getattr. rewrite frame_type_lookup by done.
  destruct (type_lookup h b name) as [a|] eqn:E; [|done]. simpl.
  by rewrite frame_descr_get by (by eapply mro_lookup_lt).
Qed.

Lemma frame_hasattr b name : b < length h -> hasattr h' b name = hasattr h b name.
Proof. intros Hb. unfold hasattr. by rewrite frame_getattr. Qed.

Lemma frame_find_overriden bases name :
  (forall b, b ∈ bases -> b < length h) ->
  find_overriden h' bases name = find_overriden h bases name.
Proof.
  induction bases as [|b bases IH]; simpl; [done|]. intros H.
  rewrite frame_hasattr, frame_getattr by (apply H; left).
  rewrite IH; [done|]. intros b' Hb'. apply H. by right.
Qed.

Lemma frame_kind_of f : f < length h -> kind_of h' f = kind_of h f.
Proof.
  intros Hf. unfold kind_of. by rewrite !frame_isinstance, frame_type_of.
Qed.

Lemma slot_lt w f : slot h w = Some f -> f < length h.
Proof.
  unfold slot. destruct (h !! w) as [[t []]|] eqn:E; try done.
  intros ->. eapply closed_refs; [done..|]. unfold refs_of; simpl. right; left.
Qed.

Lemma descr_get_below attr cls v :
  method < length h -> attr < length h ->
  descr_get h attr cls = Some v -> value_below (length h) v.
Proof.
  intros Hm Ha. unfold descr_get.
  destruct (h !! attr) as [[t b]|] eqn:E; [|by intros [= <-]].
  destruct b as [| | |f| | | |[r|t'|]]; try by intros [= <-].
  - destruct (isinstance h attr classmethod); [by intros [= <-]|].
    destruct (isinstance h attr staticmethod); intros [= <-]; simpl; [|done].
    eapply closed_refs; [done..|]. unfold refs_of; simpl. right; left.
  - intros [= <-]. simpl. eapply closed_refs; [done..|]. unfold refs_of; simpl. right; left.
  - intros [= <-]. simpl. eapply closed_refs; [done..|]. unfold refs_of; simpl. right; left.
Qed.

Lemma getattr_below b name v :
  method < length h -> getattr h b name = Some v -> value_below (length h) v.
Proof.
  intros Hm. unfold getattr. destruct (type_lookup h b name) as [a|] eqn:E; [|done].
  simpl. apply descr_get_below; [done|]. by eapply mro_lookup_lt.
Qed.

Lemma find_overriden_below bases name v :
  method < length h -> find_overriden h bases name = Some v -> value_below (length h) v.
Proof.
  intros Hm. induction bases as [|b bases IH]; simpl; [done|].
  destruct (hasattr h b name); [by apply getattr_below | apply IH].
Qed.

Lemma frame_value_type v : value_below (length h) v -> value_type h' v = value_type h v.
Proof. destruct v; simpl; [apply frame_type_of | done]. Qed.

Lemma value_type_lt v t :
  method < length h -> value_below (length h) v -> value_type h v = Some t -> t < length h.
Proof.
  intros Hm. destruct v as [r|o]; simpl.
  - intros _. apply type_of_lt.
  - by intros ? [= <-].
Qed.

Lemma frame_type_name v :
  method < length h -> value_below (length h) v ->
  type_name h' (value_type h v) = type_name h (value_type h v).
Proof.
  intros Hm Hv. destruct (value_type h v) as [t|] eqn:E; [|done]. simpl.
  apply frame_class_name. by eapply value_type_lt.
Qed.

Lemma frame_validate cn bases name value :
  method < length h ->
  (forall b, b ∈ bases -> b < length h) -> value < length h ->
  validate h' cn bases name value = validate h cn bases name value.
Proof.
  intros Hm Hb Hv. unfold validate.
  rewrite frame_isinstance, frame_find_overriden, frame_slot by done.
  destruct (isinstance h value override); [|done].
  destruct (find_overriden h bases name) as [ov|] eqn:Eo; [|done].
  destruct (slot h value) as [f|] eqn:Ef; [|done].
  pose proof (find_overriden_below _ _ _ Hm Eo) as Hov.
  pose proof (slot_lt _ _ Ef) as Hf.
  rewrite frame_value_type, frame_kind_of, frame_type_name, frame_type_of by done.
  destruct (type_of h f) as [t|] eqn:Et; [|done].
  simpl. rewrite frame_class_name; [done|]. by eapply type_of_lt.
Qed.
End Frame.

(** ** Decidable forms of the conditions *)

Lemma values_below_spec n (d : pydict) :
  values_below n d = true -> forall k v, (k, v) ∈ d -> v < n.
Proof.
  unfold values_below. rewrite below_elem. intros H k v Hin.
  apply H. apply list_elem_of_In, in_map_iff. exists (k, v).
  split; [done | by apply list_elem_of_In].
Qed.



Lemma no_marker_spec h (d : pydict) :
  no_marker h d = true ->
  forall k v, (k, v) ∈ d -> isinstance h v override = false.
Proof.
  unfold no_marker. rewrite forallb_forall. intros H k v Hin.
  specialize (H (k, v)). simpl in H. apply negb_true_iff, H. by apply list_elem_of_In.
Qed.


(** ** The interceptor in terms of the validation routine *)

Lemma get___func___slot w h :
  get___func__ w h = match slot h w with
                     | Some f => Ok f h
                     | None => Raise (AttributeError "__func__") h
                     end.
Proof.
  unfold get___func__, slot.
  by destruct (h !! w) as [[t [| | | | |[f|]| |]]|].
Qed.

Lemma OverridesMeta___setattr___validate cls name value h :
  OverridesMeta___setattr__ cls name value h =
  match validate h (class_name h cls) (class_bases h cls) name value with
  | inl e => Raise e h
  | inr v => type___setattr__ [AObj cls; AStr name; AObj v] h
  end.
Proof.
  unfold OverridesMeta___setattr__, validate, bind, get_store, raise.
  destruct (isinstance h value override); [|done].
  destruct (find_overriden h (class_bases h cls) name) as [ov|]; [|done].
  rewrite get___func___slot.
  destruct (slot h value) as [f|]; [|done].
  by destruct (bool_decide (value_type h ov = kind_of h f)).
Qed.

Lemma Meta___setattr___validate mc cls name value h :
  Meta___setattr__ mc cls name value h =
  match validate h (class_name h cls) (class_bases h cls) name value with
  | inl e => Raise e h
  | inr v => hook___setattr__ mc [AStr name; AObj v] h
  end.
Proof.
  unfold Meta___setattr__, validate, bind, get_store, raise.
  destruct (isinstance h value override); [|done].
  destruct (find_overriden h (class_bases h cls) name) as [ov|]; [|done].
  rewrite get___func___slot.
  destruct (slot h value) as [f|]; [|done].
  by destruct (bool_decide (value_type h ov = kind_of h f)).
Qed.

(** ** Namespaces with distinct keys *)

Lemma dict_get_notin k (d : pydict) : k ∉ d.*1 -> dict_get k d = None.
Proof.
  induction d as [|[k' v'] d IH]; [done|].
  rewrite fmap_cons, not_elem_of_cons. cbn [fst dict_get]. intros [Hne Hk].
  destruct (String.eqb k k') eqn:E; [|by apply IH].
  by apply String.eqb_eq in E.
Qed.

Lemma dict_get_is_Some k (d : pydict) : is_Some (dict_get k d) <-> k ∈ d.*1.
Proof.
  split.
  - intros [v Hv%dict_get_Some_elem]. apply list_elem_of_fmap. by exists (k, v).
  - intros Hk. destruct (dict_get k d) eqn:E; [by eexists|].
    apply list_elem_of_fmap in Hk as [[k' v] [-> Hin]].
    by eapply dict_get_None_notin in E.
Qed.

Lemma distinct_keys_NoDup (d : pydict) : distinct_keys d = true <-> NoDup d.*1.
Proof.
  induction d as [|[k v] d IH].
  - split; [constructor | done].
  - rewrite fmap_cons. cbn [fst distinct_keys].
    rewrite andb_true_iff, negb_true_iff, bool_decide_eq_false, dict_get_is_Some, IH.
    split; [intros [? ?]; by constructor | by inversion 1].
Qed.

(** ** The scan as a fold *)

Section Scan.
Variable h : heap.
Variables (mcls : ref) (name : string) (bases mro : list ref).
Hypothesis Hwf : wf_store h = true.
Hypothesis Hbases : forall b, b ∈ bases -> b < length h.

Lemma with_class_lookup d :
  with_class h mcls name bases mro d !! length h
  = Some (PyObj mcls (BClass name bases mro d)).
Proof. unfold with_class. by rewrite list_lookup_middle. Qed.

Lemma with_class_agree d x :
  x < length h -> with_class h mcls name bases mro d !! x = h !! x.
Proof. intros Hx. unfold with_class. by rewrite lookup_app_l. Qed.

Lemma with_class_insert d d' :
  <[length h := PyObj mcls (BClass name bases mro d')]> (with_class h mcls name bases mro d)
  = with_class h mcls name bases mro d'.
Proof.
  unfold with_class.
  rewrite insert_app_r_alt by lia. by rewrite Nat.sub_diag.
Qed.

Lemma method_lt : method < length h.
Proof. apply is_class_lt, wf_store_names; [done|]. do 3 right; left. Qed.

Lemma scan_items_install post : forall pre,
  NoDup (pre.*1 ++ post.*1) ->
  (forall k v, (k, v) ∈ post -> v < length h) ->
  scan_items OverridesMeta___setattr__ (length h) (length pre + length post)
    (length pre) (length post) (with_class h mcls name bases mro (pre ++ post)) =
  match install h name bases post with
  | (r, None) => Ok tt (with_class h mcls name bases mro (pre ++ r))
  | (r, Some e) => Raise e (with_class h mcls name bases mro (pre ++ r))
  end.
Proof.
  pose proof (wf_store_closed _ Hwf) as Hc.
  induction post as [|[k v] post IH]; intros pre Hnd Hv; simpl.
  - done.
  - unfold bind at 1, get_store at 1.
    unfold class_dict. rewrite with_class_lookup.
    rewrite length_app. simpl. rewrite Nat.eqb_refl. simpl.
    rewrite list_lookup_middle by done.
    assert (v < length h) as Hvlt by (apply (Hv k); left).
    rewrite (frame_isinstance h _ Hc (with_class_agree _)) by done.
    assert (dict_get k pre = None) as Hk.
    { apply dict_get_notin. rewrite fmap_cons in Hnd. simpl in Hnd.
      apply list.NoDup_app in Hnd as (_ & Hdisj & _).
      intros Hin. apply (Hdisj _ Hin). left. }
    assert (forall v', NoDup ((pre ++ [(k, v')]).*1 ++ post.*1)) as Hnd'.
    { intros v'. rewrite fmap_app, <- app_assoc. done. }
    assert (forall k0 v0, (k0, v0) ∈ post -> v0 < length h) as Hv'.
    { intros k0 v0 Hin. apply (Hv k0). by right. }
    assert (forall v', length pre + S (length post) = length (pre ++ [(k, v')]) + length post)
      as Hlen.
    { intros v'. rewrite length_app. simpl. lia. }
    assert (forall v', S (length pre) = length (pre ++ [(k, v')])) as Hpos.
    { intros v'. rewrite length_app. simpl. lia. }
    unfold bind.
    destruct (isinstance h v override) eqn:Hi.
    + rewrite OverridesMeta___setattr___validate.
      unfold class_name, class_bases. rewrite with_class_lookup.
      rewrite (frame_validate h _ Hc (with_class_agree _)) by (done || apply method_lt).
      destruct (validate h name bases k v) as [e|v'] eqn:Eval; [done|].
      unfold type___setattr__. rewrite with_class_lookup.
      rewrite dict_set_middle by done. rewrite with_class_insert.
      specialize (IH (pre ++ [(k, v')]) (Hnd' v') Hv').
      rewrite (Hlen v'), (Hpos v'). rewrite <- app_assoc in IH. simpl in IH.
      rewrite IH. destruct (install h name bases post) as [r [e|]];
        by rewrite <- app_assoc.
    + assert (validate h name bases k v = inr v) as ->.
      { unfold validate. by rewrite Hi. }
      unfold ret.
      specialize (IH (pre ++ [(k, v)]) (Hnd' v) Hv').
      rewrite (Hlen v), (Hpos v). rewrite <- app_assoc in IH. simpl in IH.
      rewrite IH. destruct (install h name bases post) as [r [e|]];
        by rewrite <- app_assoc.
Qed.

Lemma scan_install (d : pydict) :
  distinct_keys d = true ->
  (forall k v, (k, v) ∈ d -> v < length h) ->
  scan OverridesMeta___setattr__ (length h) (with_class h mcls name bases mro d) =
  match install h name bases d with
  | (r, None) => Ok tt (with_class h mcls name bases mro r)
  | (r, Some e) => Raise e (with_class h mcls name bases mro r)
  end.
Proof.
  intros Hd Hv. unfold scan, bind, get_store.
  unfold class_dict. rewrite with_class_lookup.
  apply (scan_items_install d []); [|done].
  by apply distinct_keys_NoDup.
Qed.
End Scan.

(** ** Class construction *)



Lemma type___new___Ok mcls name bases d h cls h1 :
  type___new__ mcls name bases d h = Ok cls h1 ->
  exists tl, cls = length h /\
    h1 = with_class h mcls name (effective_bases bases) (cls :: tl) d /\
    forallb (is_class h) (effective_bases bases) = true.
Proof.
  unfold type___new__. cbv zeta.
  destruct (forallb (is_class h) (effective_bases bases)) eqn:Hb; [|done]. cbn [negb].
  destruct (has_dup (effective_bases bases)); [done|].
  match goal with |- context [c3_merge ?a ?b] => destruct (c3_merge a b) as [tl|] end;
    [|done].
  intros [= <- <-]. by exists tl.
Qed.

Lemma type___new___Raise mcls name bases d h e h1 :
  type___new__ mcls name bases d h = Raise e h1 -> h1 = h.
Proof.
  unfold type___new__.
  unfold type___new__. cbv zeta.
  destruct (forallb _ _); cbn [negb]; [|by intros [= _ <-]].
  destruct (has_dup _); [by intros [= _ <-]|].
  match goal with |- context [c3_merge ?a ?b] => destruct (c3_merge a b) end;
    [done | by intros [= _ <-]].
Qed.

Lemma effective_bases_lt h bases :
  forallb (is_class h) (effective_bases bases) = true ->
  forall b, b ∈ effective_bases bases -> b < length h.
Proof.
  rewrite forallb_forall. intros H b Hb.
  by apply is_class_lt, H, list_elem_of_In.
Qed.

Lemma set_dict_with_class h mcls name bases mro d r :
  set_dict (length h) r (with_class h mcls name bases mro d)
  = with_class h mcls name bases mro r.
Proof.
  unfold set_dict. rewrite with_class_lookup. apply with_class_insert.
Qed.

(** Construction through the default hook is native construction followed
    by the installation of the validated namespace. *)
Lemma OverridesMeta___new___install mcls name bases d h cls h1 :
  wf_store h = true ->
  distinct_keys d = true ->
  (forall k v, (k, v) ∈ d -> v < length h) ->
  type___new__ mcls name bases d h = Ok cls h1 ->
  construct OverridesMeta_hook mcls name bases d h =
  match install h name (effective_bases bases) d with
  | (r, None) => Ok cls (set_dict cls r h1)
  | (r, Some e) => Raise e (set_dict cls r h1)
  end.
Proof.
  intros Hwf Hd Hv Hnew.
  destruct (type___new___Ok _ _ _ _ _ _ _ Hnew) as (tl & -> & -> & Hb).
  unfold construct, OverridesMeta_hook; cbn [hook___new__ hook___setattr__];
    unfold OverridesMeta___new__, bind. rewrite Hnew.
  change (setattr (def___setattr__ OverridesMeta___setattr__))
    with OverridesMeta___setattr__.
  rewrite scan_install by (done || by apply effective_bases_lt).
  destruct (install h name (effective_bases bases) d) as [r [e|]];
    by rewrite set_dict_with_class.
Qed.

Lemma OverridesMeta___new___Raise mcls name bases d h e h1 :
  type___new__ mcls name bases d h = Raise e h1 ->
  construct OverridesMeta_hook mcls name bases d h = Raise e h1.
Proof. intros H. unfold construct, OverridesMeta_hook; cbn [hook___new__ hook___setattr__];
    unfold OverridesMeta___new__, bind. by rewrite H. Qed.

(** ** The installed namespace *)











Lemma class_dict_with_class h mcls name bases mro d :
  class_dict (with_class h mcls name bases mro d) (length h) = d.
Proof. unfold class_dict. by rewrite with_class_lookup. Qed.

(** ** Construction through the default hook *)


Lemma class_dict_set_dict cls r h :
  is_class h cls = true -> class_dict (set_dict cls r h) cls = r.
Proof.
  unfold is_class, set_dict, class_dict.
  destruct (h !! cls) as [[t []]|] eqn:E; try done. intros _.
  rewrite list_lookup_insert_eq; [done|]. by eapply lookup_lt_Some.
Qed.


(** ** Classes without markers *)

(** A scan that meets no marker leaves the store as it is, whatever the
    interceptor. *)
Lemma scan_items_no_marker setattr cls used n : forall pos h,
  length (class_dict h cls) = used ->
  (forall k v, (k, v) ∈ class_dict h cls -> isinstance h v override = false) ->
  scan_items setattr cls used pos n h = Ok tt h.
Proof.
  induction n as [|n IH]; intros pos h Hlen Hno; simpl; [done|].
  unfold bind at 1, get_store at 1. rewrite Hlen, Nat.eqb_refl. simpl.
  destruct (class_dict h cls !! pos) as [[k v]|] eqn:E; [|done].
  rewrite (Hno k v) by (by eapply list_elem_of_lookup_2).
  unfold bind, ret. by apply IH.
Qed.


(** ** The order of the bases *)




(** ** Names every class inherits from [object] *)

Lemma rooted_lookup h c o :
  rooted h = true -> h !! c = Some o -> rooted_obj h c o = true.
Proof.
  unfold rooted. rewrite forallb_forall. intros H Hc.
  apply (H (c, o)). apply list_elem_of_In, elem_of_lookup_imap. eauto.
Qed.

Lemma rooted_object_in_mro h c :
  rooted h = true -> is_class h c = true -> object ∈ class_mro h c.
Proof.
  intros Hr Hc. unfold is_class in Hc. unfold class_mro.
  destruct (h !! c) as [[t b]|] eqn:E; [|done].
  pose proof (rooted_lookup _ _ _ Hr E) as H. unfold rooted_obj in H. simpl in H.
  destruct b; try done.
  apply andb_true_iff in H as [H _]. by apply mem_elem.
Qed.





(** ** The marker *)

Lemma snoc_agree (h : heap) o x : x < length h -> (h ++ [o]) !! x = h !! x.
Proof. intros. by apply lookup_app_l. Qed.

Lemma override___new___run h cls func :
  closed h = true -> func < length h ->
  override___new__ cls func h =
  if valid_member h func
  then Ok (length h) (h ++ [PyObj cls (BSlots (Some func))])
  else Raise (ValueError "value of func parameter must be callable")
             (h ++ [PyObj cls (BSlots None)]).
Proof.
  intros Hc Hf.
  unfold override___new__, object___new__, alloc, bind, get_store.
  rewrite (frame_callable h _ Hc (snoc_agree h _)) by done.
  rewrite !(frame_isinstance h _ Hc (snoc_agree h _)) by done.
  unfold valid_member. rewrite <- !orb_assoc.
  destruct (callable h func); simpl.
  - unfold set___func__. rewrite list_lookup_middle by done.
    unfold ret. f_equal. rewrite insert_app_r_alt by lia. by rewrite Nat.sub_diag.
  - destruct (isinstance h func classmethod || (isinstance h func staticmethod
              || isinstance h func property)); simpl; [|done].
    unfold set___func__. rewrite list_lookup_middle by done.
    unfold ret. f_equal. rewrite insert_app_r_alt by lia. by rewrite Nat.sub_diag.
Qed.

Lemma override___eq___wrappers h a b f g :
  isinstance h b override = true -> slot h a = Some f -> slot h b = Some g ->
  override___eq__ a b h = Ok (PyBool (Nat.eqb f g)) h.
Proof.
  intros Hi Ha Hb. unfold override___eq__, bind, get_store. rewrite Hi. simpl.
  rewrite !get___func___slot, Ha. by rewrite get___func___slot, Hb.
Qed.

(** The hash of a wrapper is the hash of the 1-tuple of its member, and
    fails as the hash of the member fails. *)
Lemma override___hash___member hash tuple_hash w f h :
  slot h w = Some f ->
  override___hash__ hash tuple_hash w h =
  match hash f h with
  | Ok y h' => Ok (tuple_hash [y]) h'
  | Raise e h' => Raise e h'
  end.
Proof.
  intros Hs. unfold override___hash__, bind. by rewrite get___func___slot, Hs.
Qed.



Lemma closed_snoc h o :
  closed h = true -> below (length h) (refs_of o) = true -> closed (h ++ [o]) = true.
Proof.
  unfold closed. rewrite !forallb_forall. intros Hc Ho x Hx.
  rewrite length_app. cbn [length]. apply below_elem. intros r Hr.
  apply in_app_or in Hx as [Hx|[<-|[]]].
  - specialize (Hc _ Hx). rewrite below_elem in Hc. specialize (Hc _ Hr). lia.
  - rewrite below_elem in Ho. specialize (Ho _ Hr). lia.
Qed.

Lemma imap_pair_snoc {A} (l : list A) x : imap pair (l ++ [x]) = imap pair l ++ [(length l, x)].
Proof. rewrite imap_app. simpl. by rewrite Nat.add_0_r. Qed.

Lemma wf_store_snoc h o :
  wf_store h = true -> below (length h) (refs_of o) = true ->
  mro_head_ok (length h) o = true -> wf_store (h ++ [o]) = true.
Proof.
  unfold wf_store. rewrite !andb_true_iff. intros [[Hc Hn] Hm] Ho Hh. split_and!.
  - by apply closed_snoc.
  - rewrite forallb_forall in *. intros c Hin. specialize (Hn c Hin).
    rewrite (frame_is_class h _ (snoc_agree h _)); [done|]. by apply is_class_lt.
  - rewrite imap_pair_snoc, forallb_app, Hm. simpl. by rewrite Hh.
Qed.

(** ** What the hook leaves alone *)

Lemma type___setattr___slot args h w :
  slot (store_of (type___setattr__ args h)) w = slot h w.
Proof.
  unfold type___setattr__.
  destruct args as [|[s|cls] rest]; [done..|].
  destruct (h !! cls) as [[t b]|] eqn:E; [|done].
  destruct b; try done.
  destruct rest as [|[name|?] [|[?|value] [|? ?]]]; try done.
  simpl. unfold slot. destruct (decide (w = cls)) as [->|Hne].
  - rewrite E. rewrite list_lookup_insert_eq; [done|]. by eapply lookup_lt_Some.
  - by rewrite list_lookup_insert_ne.
Qed.

Lemma OverridesMeta___setattr___slot cls name value h w :
  slot (store_of (OverridesMeta___setattr__ cls name value h)) w = slot h w.
Proof.
  rewrite OverridesMeta___setattr___validate.
  destruct (validate _ _ _ _ _); [done | apply type___setattr___slot].
Qed.

Lemma scan_items_slot cls used w n : forall pos h,
  slot (store_of (scan_items OverridesMeta___setattr__ cls used pos n h)) w = slot h w.
Proof.
  induction n as [|n IH]; intros pos h; simpl; [done|].
  unfold bind at 1, get_store at 1.
  destruct (negb _); [done|].
  destruct (class_dict h cls !! pos) as [[k v]|]; [|done].
  unfold bind. destruct (isinstance h v override).
  - pose proof (OverridesMeta___setattr___slot cls k v h w) as Hs.
    destruct (OverridesMeta___setattr__ cls k v h) as [[] h'|e h']; simpl in Hs; [|done].
    by rewrite IH.
  - unfold ret. apply IH.
Qed.

Lemma OverridesMeta___new___slot mcls name bases d h w :
  w < length h ->
  slot (store_of (construct OverridesMeta_hook mcls name bases d h)) w = slot h w.
Proof.
  intros Hw. unfold construct, OverridesMeta_hook; cbn [hook___new__ hook___setattr__];
    unfold OverridesMeta___new__, bind.
  change (setattr (def___setattr__ OverridesMeta___setattr__))
    with OverridesMeta___setattr__.
  destruct (type___new__ mcls name bases d h) as [cls h1|e h1] eqn:Hnew.
  - destruct (type___new___Ok _ _ _ _ _ _ _ Hnew) as (tl & -> & -> & _).
    assert (slot (with_class h mcls name (effective_bases bases) (length h :: tl) d) w
            = slot h w) as <-.
    { unfold slot, with_class. by rewrite lookup_app_l. }
    unfold scan, bind, get_store.
    match goal with |- context [scan_items ?s ?c ?u ?p ?n ?st] =>
      pose proof (scan_items_slot c u w n p st) as Hs;
      destruct (scan_items s c u p n st) end; done.
  - apply type___new___Raise in Hnew. by subst.
Qed.

Lemma slot_Some_lt h w f : slot h w = Some f -> w < length h.
Proof.
  unfold slot. destruct (h !! w) eqn:E; [|done]. intros _. by eapply lookup_lt_Some.
Qed.

(** ** Hooks produced by the factory *)

(** A produced interceptor never returns when the base hook's
    [__setattr__] refuses a call that lacks the class argument. *)
Lemma Meta___setattr___never_returns (mc : hook) :
  (forall a1 a2 h, exists e h', hook___setattr__ mc [a1; a2] h = Raise e h') ->
  forall cls name value h, exists e h',
    Meta___setattr__ mc cls name value h = Raise e h'.
Proof.
  intros Harity cls name value h. rewrite Meta___setattr___validate.
  destruct (validate _ _ _ _ _) as [e|v]; [by eauto|]. apply Harity.
Qed.

(** Both [type.__setattr__] and a [__setattr__] written in Python refuse
    a call with two arguments. *)
Lemma type___setattr___two_arguments a1 a2 h :
  exists e h', type___setattr__ [a1; a2] h = Raise e h'.
Proof.
  unfold type___setattr__. destruct a1 as [s|cls]; [by eauto|].
  destruct (h !! cls) as [[t []]|]; try by eauto.
  destruct a2; by eauto.
Qed.

Lemma def___setattr___two_arguments f a1 a2 h :
  exists e h', def___setattr__ f [a1; a2] h = Raise e h'.
Proof. unfold def___setattr__. destruct a1, a2; by eauto. Qed.


(** On a class without markers a produced hook adds nothing to its base
    hook. *)
Lemma Meta___new___no_marker (mc : hook) n doc mcls name bases classdict h :
  let produced := create_custom_overrides_meta mc n doc in
  (forall cls h1,
     hook___new__ mc (hook___setattr__ produced) mcls name bases classdict h = Ok cls h1 ->
     forall k v, (k, v) ∈ class_dict h1 cls -> isinstance h1 v override = false) ->
  construct produced mcls name bases classdict h
  = hook___new__ mc (hook___setattr__ produced) mcls name bases classdict h.
Proof.
  intros produced Hno. revert Hno.
  unfold construct, produced, create_custom_overrides_meta.
  cbn [hook___new__ hook___setattr__]. intros Hno.
  unfold Meta___new__, bind.
  destruct (hook___new__ mc _ mcls name bases classdict h) as [cls h1|e h1] eqn:Hnew;
    [|done].
  unfold scan, bind, get_store.
  rewrite scan_items_no_marker; [done|done|]. by apply (Hno cls h1).
Qed.



(** ** The linearisation *)

Lemma find_candidate_head todo seqs c :
  find_candidate todo seqs = Some c -> exists s, s ∈ todo /\ head s = Some c.
Proof.
  induction todo as [|s todo IH]; simpl; [done|].
  destruct s as [|x s].
  - intros (s' & Hin & Hh)%IH. exists s'. split; [by right | done].
  - destruct (head_ok x seqs).
    + intros [= ->]. exists (c :: s). split; [left | done].
    + intros (s' & Hin & Hh)%IH. exists s'. split; [by right | done].
Qed.

Lemma drop_head_subset c s x : x ∈ drop_head c s -> x ∈ s.
Proof.
  destruct s as [|y s]; simpl; [done|].
  destruct (Nat.eqb y c); [by right | done].
Qed.

Lemma drop_head_complete c s x : x ∈ s -> x = c \/ x ∈ drop_head c s.
Proof.
  destruct s as [|y s]; simpl; [by right|].
  destruct (Nat.eqb y c) eqn:E; [|by right].
  apply Nat.eqb_eq in E. subst y.
  intros [->|Hx]%elem_of_cons; auto.
Qed.

Lemma elem_of_live s (seqs : list (list ref)) :
  s ∈ List.filter nonempty seqs <-> s ∈ seqs /\ s <> [].
Proof.
  rewrite !list_elem_of_In, filter_In.
  split; intros [H1 H2]; (split; [done|]); by destruct s.
Qed.

Lemma c3_merge_S fuel seqs :
  c3_merge (S fuel) seqs =
  match List.filter nonempty seqs with
  | [] => Some []
  | live =>
      match find_candidate live live with
      | None => None
      | Some c => cons c <$> c3_merge fuel (map (drop_head c) live)
      end
  end.
Proof. reflexivity. Qed.

(** Every class of the result comes from one of the merged sequences. *)
Lemma c3_merge_subset fuel : forall seqs l,
  c3_merge fuel seqs = Some l ->
  forall x, x ∈ l -> exists s, s ∈ seqs /\ x ∈ s.
Proof.
  induction fuel as [|fuel IH]; intros seqs l; [done|]. rewrite c3_merge_S.
  destruct (List.filter nonempty seqs) as [|s0 live] eqn:Elive.
  - intros [= <-] x Hx. inversion Hx.
  - cbv zeta.
    destruct (find_candidate (s0 :: live) (s0 :: live)) as [c|] eqn:Ec; [|done].
    destruct (c3_merge fuel (map (drop_head c) (s0 :: live))) as [l'|] eqn:El; [|done].
    intros [= <-] x [->|Hx]%elem_of_cons.
    + apply find_candidate_head in Ec as (s & Hs & Hh).
      rewrite <- Elive in Hs. apply elem_of_live in Hs as [Hs _].
      exists s. split; [done|]. destruct s; simplify_eq/=. left.
    + destruct (IH _ _ El x Hx) as (s' & Hs' & Hx').
      apply list_elem_of_fmap in Hs' as (s & -> & Hs).
      rewrite <- Elive in Hs. apply elem_of_live in Hs as [Hs _].
      exists s. split; [done|]. by eapply drop_head_subset.
Qed.

(** Every class of a merged sequence is in the result. *)
Lemma c3_merge_complete fuel : forall seqs l,
  c3_merge fuel seqs = Some l ->
  forall s x, s ∈ seqs -> x ∈ s -> x ∈ l.
Proof.
  induction fuel as [|fuel IH]; intros seqs l; [done|]. rewrite c3_merge_S.
  destruct (List.filter nonempty seqs) as [|s0 live] eqn:Elive.
  - intros [= <-] s x Hs Hx.
    assert (s ∈ List.filter nonempty seqs) as Hl.
    { apply elem_of_live. split; [done|]. intros ->. by apply not_elem_of_nil in Hx. }
    rewrite Elive in Hl. by apply not_elem_of_nil in Hl.
  - cbv zeta.
    destruct (find_candidate (s0 :: live) (s0 :: live)) as [c|] eqn:Ec; [|done].
    destruct (c3_merge fuel (map (drop_head c) (s0 :: live))) as [l'|] eqn:El; [|done].
    intros [= <-] s x Hs Hx.
    destruct (drop_head_complete c s x Hx) as [->|Hd]; [left|]. right.
    apply (IH _ _ El (drop_head c s) x); [|done].
    apply list_elem_of_fmap. exists s. split; [done|].
    rewrite <- Elive. apply elem_of_live. split; [done|].
    intros ->. by apply not_elem_of_nil in Hx.
Qed.

(** ** Well-formedness is kept *)

Lemma below_mono n m l : n <= m -> below n l = true -> below m l = true.
Proof.
  rewrite !below_elem. intros Hle H r Hr. specialize (H r Hr). lia.
Qed.

Lemma closed_snoc_self h o :
  closed h = true -> below (S (length h)) (refs_of o) = true -> closed (h ++ [o]) = true.
Proof.
  unfold closed. rewrite !forallb_forall. intros Hc Ho x Hx.
  rewrite length_app. cbn [length]. rewrite Nat.add_1_r.
  apply in_app_or in Hx as [Hx|[<-|[]]]; [|done].
  eapply below_mono; [|by apply Hc]. lia.
Qed.

Lemma wf_store_snoc_self h o :
  wf_store h = true -> below (S (length h)) (refs_of o) = true ->
  mro_head_ok (length h) o = true -> wf_store (h ++ [o]) = true.
Proof.
  unfold wf_store. rewrite !andb_true_iff. intros [[Hc Hn] Hm] Ho Hh. split_and!.
  - by apply closed_snoc_self.
  - rewrite forallb_forall in *. intros c Hin. specialize (Hn c Hin).
    rewrite (frame_is_class h _ (snoc_agree h _)); [done|]. by apply is_class_lt.
  - rewrite imap_pair_snoc, forallb_app, Hm. simpl. by rewrite Hh.
Qed.

Lemma type___new___mro_below mcls name bases d h cls h1 :
  closed h = true ->
  type___new__ mcls name bases d h = Ok cls h1 ->
  forall x, x ∈ class_mro h1 cls -> x < S (length h).
Proof.
  intros Hc Hnew.
  pose proof Hnew as (tl & -> & -> & Hb)%type___new___Ok.
  unfold class_mro. rewrite with_class_lookup.
  intros x [->|Hx]%elem_of_cons; [lia|].
  revert Hnew. unfold type___new__. cbv zeta. rewrite Hb. cbn [negb].
  destruct (has_dup _); [done|].
  match goal with |- context [c3_merge ?a ?b] =>
    destruct (c3_merge a b) as [tl'|] eqn:Em end; [|done].
  intros [= E]. apply app_inj_tail in E as [_ [= <-]].
  destruct (c3_merge_subset _ _ _ Em x Hx) as (s & Hs & Hxs).
  apply elem_of_app in Hs as [Hs|Hs].
  - apply list_elem_of_fmap in Hs as (b & -> & Hbin).
    pose proof (class_mro_lt h Hc b x Hxs). lia.
  - apply list_elem_of_singleton in Hs as ->.
    pose proof (effective_bases_lt h bases Hb x Hxs). lia.
Qed.

(** [type.__new__] keeps the store well formed. *)
Lemma type___new___wf_store mcls name bases d h cls h1 :
  wf_store h = true -> mcls < length h -> values_below (length h) d = true ->
  type___new__ mcls name bases d h = Ok cls h1 ->
  wf_store h1 = true.
Proof.
  intros Hwf Hm Hd Hnew.
  pose proof (wf_store_closed _ Hwf) as Hc.
  pose proof (type___new___mro_below _ _ _ _ _ _ _ Hc Hnew) as Hmro.
  pose proof Hnew as (tl & -> & -> & Hb)%type___new___Ok.
  unfold class_mro in Hmro. rewrite with_class_lookup in Hmro.
  apply wf_store_snoc_self; [done| |].
  - apply below_elem. unfold refs_of. cbn [ob_type ob_body].
    intros r [->|Hr]%elem_of_cons; [lia|].
    rewrite !elem_of_app in Hr. destruct Hr as [Hr|[Hr|Hr]].
    + pose proof (effective_bases_lt h bases Hb r Hr). lia.
    + by apply Hmro.
    + unfold values_below in Hd. rewrite below_elem in Hd.
      specialize (Hd r). unfold fmap, list_fmap in Hr. specialize (Hd Hr). lia.
  - unfold mro_head_ok. simpl. apply Nat.eqb_refl.
Qed.

(** [type.__new__] keeps every class a descendant of [object]. *)
Lemma type___new___rooted mcls name bases d h cls h1 :
  rooted h = true ->
  type___new__ mcls name bases d h = Ok cls h1 ->
  rooted h1 = true.
Proof.
  intros Hr Hnew.
  pose proof Hnew as (tl & -> & -> & Hb)%type___new___Ok.
  unfold rooted, with_class. rewrite imap_pair_snoc, forallb_app. apply andb_true_iff. split.
  - unfold rooted in Hr. rewrite forallb_forall in *. intros [c o] Hin.
    specialize (Hr _ Hin). revert Hr. unfold rooted_obj.
    destruct (ob_body o) as [n bs mro dd| | | | | | |]; try done.
    destruct (mem object mro); [|done]. simpl.
    destruct (Nat.eqb c object); [done|]. simpl.
    destruct bs as [|b bs]; [done|]. intros Hbc.
    rewrite (frame_is_class h _ (snoc_agree h _)); [done|]. by apply is_class_lt.
  - simpl. rewrite andb_true_r. unfold rooted_obj. simpl.
    assert (exists b rest, effective_bases bases = b :: rest) as (b & rest & Eb).
    { unfold effective_bases. destruct bases; eauto. }
    assert (is_class h b = true) as Hbc.
    { rewrite forallb_forall in Hb. apply Hb. rewrite Eb. left. done. }
    rewrite Eb. fold (with_class h mcls name (b :: rest) (length h :: tl) d).
    rewrite (frame_is_class h _ (with_class_agree _ _ _ _ _ _)) by (by apply is_class_lt).
    rewrite Hbc, orb_true_r, andb_true_r.
    assert (object ∈ tl) as Ho; [|apply orb_true_iff; right; by apply mem_elem].
    revert Hnew. unfold type___new__. cbv zeta. rewrite Hb. cbn [negb].
    destruct (has_dup _); [done|].
    match goal with |- context [c3_merge ?a ?b] =>
      destruct (c3_merge a b) as [tl'|] eqn:Em end; [|done].
    intros [= E]. apply app_inj_tail in E as [_ [= <-]].
    apply (c3_merge_complete _ _ _ Em (class_mro h b) object).
    + rewrite Eb. simpl. left.
    + by apply rooted_object_in_mro.
Qed.

Lemma closed_spec h :
  closed h = true <->
  forall x o, h !! x = Some o -> below (length h) (refs_of o) = true.
Proof.
  unfold closed. rewrite forallb_forall. split.
  - intros H x o Hx. apply H, list_elem_of_In. by eapply list_elem_of_lookup_2.
  - intros H o Ho. apply list_elem_of_In, list_elem_of_lookup_1 in Ho as [x Hx]. eauto.
Qed.

Lemma forallb_imap_spec {A} (f : nat -> A -> bool) (l : list A) :
  forallb (fun '(i, x) => f i x) (imap pair l) = true <->
  forall i x, l !! i = Some x -> f i x = true.
Proof.
  rewrite forallb_forall. split.
  - intros H i x Hi. apply (H (i, x)), list_elem_of_In, elem_of_lookup_imap. eauto.
  - intros H [i x] Hin.
    apply list_elem_of_In, elem_of_lookup_imap in Hin as (i' & x' & [= -> ->] & Hi). eauto.
Qed.

Lemma wf_store_spec h :
  wf_store h = true <->
  closed h = true /\
  (forall c, c ∈ module_names -> is_class h c = true) /\
  (forall c o, h !! c = Some o -> mro_head_ok c o = true).
Proof.
  unfold wf_store. rewrite !andb_true_iff, forallb_imap_spec, forallb_forall.
  split.
  - intros [[H1 H2] H3]. split_and!; try done.
    intros c Hc. by apply H2, list_elem_of_In.
  - intros (H1 & H2 & H3). split_and!; try done.
    intros c Hc. by apply H2, list_elem_of_In.
Qed.

Lemma rooted_spec h :
  rooted h = true <-> forall c o, h !! c = Some o -> rooted_obj h c o = true.
Proof. unfold rooted. apply forallb_imap_spec. Qed.

(** Replacing the namespace of a class by one whose values are in the
    store keeps the store well formed, and every class rooted. *)
Lemma set_dict_lookup cls r h x :
  set_dict cls r h !! x =
  match h !! x with
  | Some (PyObj t (BClass n bs mro d)) =>
      if decide (x = cls) then Some (PyObj t (BClass n bs mro r))
      else Some (PyObj t (BClass n bs mro d))
  | o => o
  end.
Proof.
  unfold set_dict. destruct (decide (x = cls)) as [->|Hne].
  - destruct (h !! cls) as [[t b]|] eqn:E; [|by rewrite E].
    destruct b; rewrite ?E; try done.
    rewrite list_lookup_insert_eq; [done|]. by eapply lookup_lt_Some.
  - destruct (h !! cls) as [[t b]|] eqn:E.
    + destruct b; try by (destruct (h !! x) as [[? []]|]).
      rewrite list_lookup_insert_ne by done. by destruct (h !! x) as [[? []]|].
    + by destruct (h !! x) as [[? []]|].
Qed.

Lemma set_dict_length cls r h : length (set_dict cls r h) = length h.
Proof.
  unfold set_dict. destruct (h !! cls) as [[t []]|]; try done. apply length_insert.
Qed.

Lemma set_dict_is_class cls r h c : is_class (set_dict cls r h) c = is_class h c.
Proof.
  unfold is_class. rewrite set_dict_lookup.
  destruct (h !! c) as [[t []]|]; try done. by destruct (decide _).
Qed.

Lemma set_dict_wf_store cls r h :
  wf_store h = true -> values_below (length h) r = true ->
  wf_store (set_dict cls r h) = true.
Proof.
  rewrite !wf_store_spec, !closed_spec. intros (Hc & Hn & Hm) Hr. split_and!.
  - intros x o. rewrite set_dict_lookup, set_dict_length.
    destruct (h !! x) as [[t b]|] eqn:E; [|done].
    specialize (Hc _ _ E).
    destruct b as [n bs mro d| | | | | | |]; try by intros [= <-].
    destruct (decide (x = cls)); intros [= <-]; [|done].
    revert Hc. rewrite !below_elem. unfold refs_of. cbn [ob_type ob_body].
    intros Hc y Hy. apply elem_of_cons in Hy as [->|Hy]; [apply Hc; left|].
    rewrite !elem_of_app in Hy. destruct Hy as [Hy|[Hy|Hy]].
    + apply Hc. right. rewrite !elem_of_app. auto.
    + apply Hc. right. rewrite !elem_of_app. auto.
    + unfold values_below in Hr. rewrite below_elem in Hr. by apply Hr.
  - intros c Hin. rewrite set_dict_is_class. by apply Hn.
  - intros c o. rewrite set_dict_lookup.
    destruct (h !! c) as [[t b]|] eqn:E; [|done].
    specialize (Hm _ _ E).
    destruct b as [n bs mro d| | | | | | |]; try by intros [= <-].
    destruct (decide (c = cls)); by intros [= <-].
Qed.

Lemma set_dict_rooted cls r h :
  rooted h = true -> rooted (set_dict cls r h) = true.
Proof.
  rewrite !rooted_spec. intros Hr c o. rewrite set_dict_lookup.
  destruct (h !! c) as [[t b]|] eqn:E; [|done].
  specialize (Hr _ _ E). revert Hr.
  assert (forall o', ob_body o' = ob_body (PyObj t b) \/
                     (exists n bs mro d d', b = BClass n bs mro d /\
                        ob_body o' = BClass n bs mro d') ->
                     rooted_obj h c (PyObj t b) = true ->
                     rooted_obj (set_dict cls r h) c o' = true) as Hgen.
  { intros o' Ho'. unfold rooted_obj.
    destruct Ho' as [->|(n & bs & mro & d & d' & -> & ->)]; simpl.
    - destruct b as [n bs mro d| | | | | | |]; try done.
      destruct bs as [|b0 bs]; [done|]. by rewrite set_dict_is_class.
    - destruct bs as [|b0 bs]; [done|]. by rewrite set_dict_is_class. }
  destruct b as [n bs mro d| | | | | | |];
    try (intros Hr [= <-]; apply Hgen; [by left | done]).
  destruct (decide (c = cls)); intros Hr [= <-]; apply Hgen; try done.
  - right. by exists n, bs, mro, d, r.
  - by left.
Qed.

(** The values of the installed namespace are values of the body, or
    members that markers of the store wrap. *)
Lemma install_values h cn bases d r e :
  closed h = true ->
  values_below (length h) d = true ->
  install h cn bases d = (r, e) ->
  values_below (length h) r = true.
Proof.
  intros Hc. revert r e. unfold values_below.
  induction d as [|[k v] d IH]; intros r e Hd; simpl.
  - by intros [= <- <-].
  - simpl in Hd. apply andb_true_iff in Hd as [Hv Hd].
    destruct (validate h cn bases k v) as [e'|v'] eqn:Ev.
    + intros [= <- <-]. simpl. by rewrite Hv.
    + destruct (install h cn bases d) as [r' e''] eqn:Ei.
      intros [= <- <-]. simpl. rewrite (IH _ _ Hd eq_refl), andb_true_r.
      apply Nat.ltb_lt. revert Ev. unfold validate.
      destruct (isinstance h v override).
      * destruct (find_overriden h bases k); [|done].
        destruct (slot h v) as [f|] eqn:Es; [|done].
        destruct (bool_decide _); [|done]. intros [= <-]. by eapply slot_lt.
      * intros [= <-]. by apply Nat.ltb_lt.
Qed.

(** Construction through the default hook keeps the store well formed
    and every class rooted, whether it returns or raises. *)
Lemma construct_wf_store mcls name bases d h :
  wf_store h = true -> mcls < length h ->
  distinct_keys d = true -> values_below (length h) d = true ->
  wf_store (store_of (construct OverridesMeta_hook mcls name bases d h)) = true.
Proof.
  intros Hwf Hm Hd Hv.
  destruct (type___new__ mcls name bases d h) as [cls h1|e h1] eqn:Hnew.
  - rewrite (OverridesMeta___new___install _ _ _ _ _ _ _ Hwf Hd (values_below_spec _ _ Hv) Hnew).
    pose proof (type___new___wf_store _ _ _ _ _ _ _ Hwf Hm Hv Hnew) as Hwf1.
    destruct (install h name (effective_bases bases) d) as [r e] eqn:Ei.
    pose proof (install_values _ _ _ _ _ _ (wf_store_closed _ Hwf) Hv Ei) as Hr.
    assert (values_below (length h1) r = true) as Hr1.
    { apply type___new___Ok in Hnew as (tl & -> & -> & _).
      eapply below_mono; [|exact Hr]. unfold with_class. rewrite length_app. lia. }
    destruct e; simpl; by apply set_dict_wf_store.
  - rewrite (OverridesMeta___new___Raise _ _ _ _ _ _ _ Hnew). simpl.
    apply type___new___Raise in Hnew. by subst.
Qed.

Lemma construct_rooted mcls name bases d h :
  wf_store h = true -> rooted h = true ->
  distinct_keys d = true -> values_below (length h) d = true ->
  rooted (store_of (construct OverridesMeta_hook mcls name bases d h)) = true.
Proof.
  intros Hwf Hr Hd Hv.
  destruct (type___new__ mcls name bases d h) as [cls h1|e h1] eqn:Hnew.
  - rewrite (OverridesMeta___new___install _ _ _ _ _ _ _ Hwf Hd (values_below_spec _ _ Hv) Hnew).
    pose proof (type___new___rooted _ _ _ _ _ _ _ Hr Hnew) as Hr1.
    destruct (install h name (effective_bases bases) d) as [r [e|]]; simpl;
      by apply set_dict_rooted.
  - rewrite (OverridesMeta___new___Raise _ _ _ _ _ _ _ Hnew). simpl.
    apply type___new___Raise in Hnew. by subst.
Qed.

(** The store after [import] is well formed and rooted. *)
Lemma builtins_wf_store : wf_store builtins = true.
Proof. reflexivity. Qed.

Lemma builtins_rooted : rooted builtins = true.
Proof. reflexivity. Qed.

(** Building a wrapper keeps the store well formed and rooted. *)
Lemma override___new___wf_store func h :
  wf_store h = true -> func < length h ->
  wf_store (store_of (override___new__ override func h)) = true.
Proof.
  intros Hwf Hf. pose proof (wf_store_closed _ Hwf) as Hc.
  assert (override < length h) as Ho.
  { apply is_class_lt, wf_store_names; [done|]. do 7 right; left. }
  rewrite override___new___run by done.
  destruct (valid_member h func); simpl; apply wf_store_snoc; try done.
  - apply below_elem. intros r [->|[->|[]%not_elem_of_nil]%elem_of_cons]%elem_of_cons; done.
  - apply below_elem. intros r [->|[]%not_elem_of_nil]%elem_of_cons; done.
Qed.

(** ** Auxiliary facts *)

Lemma install_keys h cn bases d : forall r e,
  install h cn bases d = (r, e) -> r.*1 = d.*1.
Proof.
  induction d as [|[k v] d IH]; intros r e; simpl.
  - by intros [= <- <-].
  - destruct (validate h cn bases k v).
    + by intros [= <- <-].
    + destruct (install h cn bases d) as [r' e'] eqn:E.
      intros [= <- <-]. rewrite !fmap_cons. cbn [fst]. f_equal. by eapply IH.
Qed.

Lemma install_failure_entry h cn bases d : forall r e,
  install h cn bases d = (r, Some e) ->
  exists k v, (k, v) ∈ d /\ validate h cn bases k v = inl e.
Proof.
  induction d as [|[k v] d IH]; intros r e; simpl; [done|].
  destruct (validate h cn bases k v) as [e0|v'] eqn:Hv.
  - intros [= <- <-]. exists k, v. split; [left | done].
  - destruct (install h cn bases d) as [r' e'] eqn:E.
    intros [= <- ->]. destruct (IH _ _ eq_refl) as (k' & w & Hin & Hw).
    exists k', w. split; [by right | done].
Qed.


Lemma type___new___TypeError mcls name bases d h e s :
  type___new__ mcls name bases d h = Raise e s -> exists m, e = TypeError m.
Proof.
  unfold type___new__. cbv zeta.
  destruct (negb _); [intros [= <- _]; eauto|].
  destruct (has_dup _); [intros [= <- _]; eauto|].
  match goal with |- context [c3_merge ?a ?b] => destruct (c3_merge a b) end;
    [done | intros [= <- _]; eauto].
Qed.

Lemma type___setattr___other cls rest h x :
  x <> cls -> store_of (type___setattr__ (AObj cls :: rest) h) !! x = h !! x.
Proof.
  intros Hne. unfold type___setattr__.
  destruct (h !! cls) as [[t b]|] eqn:E; [|done].
  destruct b; try done.
  destruct rest as [|[name|?] [|[?|value] [|? ?]]]; try done.
  simpl. by rewrite list_lookup_insert_ne.
Qed.

Lemma type___setattr___length args h :
  length (store_of (type___setattr__ args h)) = length h.
Proof.
  unfold type___setattr__.
  destruct args as [|[s|cls] rest]; [done..|].
  destruct (h !! cls) as [[t b]|] eqn:E; [|done].
  destruct b; try done.
  destruct rest as [|[name|?] [|[?|value] [|? ?]]]; try done.
  simpl. by rewrite length_insert.
Qed.

Lemma OverridesMeta___setattr___other cls name value h x :
  x <> cls -> store_of (OverridesMeta___setattr__ cls name value h) !! x = h !! x.
Proof.
  intros Hne. rewrite OverridesMeta___setattr___validate.
  destruct (validate _ _ _ _ _); [done | by apply type___setattr___other].
Qed.

Lemma OverridesMeta___setattr___length cls name value h :
  length (store_of (OverridesMeta___setattr__ cls name value h)) = length h.
Proof.
  rewrite OverridesMeta___setattr___validate.
  destruct (validate _ _ _ _ _); [done | by apply type___setattr___length].
Qed.

Lemma scan_items_other cls used x n : forall pos h,
  x <> cls ->
  store_of (scan_items OverridesMeta___setattr__ cls used pos n h) !! x = h !! x.
Proof.
  induction n as [|n IH]; intros pos h Hne; simpl; [done|].
  unfold bind at 1, get_store at 1.
  destruct (negb _); [done|].
  destruct (class_dict h cls !! pos) as [[k v]|]; [|done].
  unfold bind. destruct (isinstance h v override).
  - pose proof (OverridesMeta___setattr___other cls k v h x Hne) as Hs.
    destruct (OverridesMeta___setattr__ cls k v h) as [[] h'|e h']; simpl in Hs; [|done].
    by rewrite IH.
  - unfold ret. by apply IH.
Qed.

Lemma scan_items_length cls used n : forall pos h,
  length (store_of (scan_items OverridesMeta___setattr__ cls used pos n h)) = length h.
Proof.
  induction n as [|n IH]; intros pos h; simpl; [done|].
  unfold bind at 1, get_store at 1.
  destruct (negb _); [done|].
  destruct (class_dict h cls !! pos) as [[k v]|]; [|done].
  unfold bind. destruct (isinstance h v override).
  - pose proof (OverridesMeta___setattr___length cls k v h) as Hs.
    destruct (OverridesMeta___setattr__ cls k v h) as [[] h'|e h']; simpl in Hs; [|done].
    by rewrite IH.
  - unfold ret. by apply IH.
Qed.


Lemma is_class_with_class h mcls name bases mro d :
  is_class (with_class h mcls name bases mro d) (length h) = true.
Proof. unfold is_class. by rewrite with_class_lookup. Qed.

Lemma values_below_elem n (d : pydict) k v :
  values_below n d = true -> (k, v) ∈ d -> v < n.
Proof. intros H. by apply values_below_spec. Qed.

Lemma construct_default_unfold mcls name bases d h :
  construct OverridesMeta_hook mcls name bases d h =
  match type___new__ mcls name bases d h with
  | Ok cls h1 =>
      match scan OverridesMeta___setattr__ cls h1 with
      | Ok _ h2 => Ok cls h2
      | Raise e h2 => Raise e h2
      end
  | Raise e h1 => Raise e h1
  end.
Proof. reflexivity. Qed.




Lemma override___eq___true_iff s a b :
  isinstance s b override = true ->
  override___eq__ a b s = Ok (PyBool true) s <->
  exists f, slot s a = Some f /\ slot s b = Some f.
Proof.
  intros Hb. unfold override___eq__, bind, get_store. rewrite Hb. cbn [negb].
  rewrite get___func___slot.
  destruct (slot s a) as [f|]; simpl; [|split; [done | by intros (? & [=] & _)]].
  rewrite get___func___slot.
  destruct (slot s b) as [g|]; simpl; [|split; [done | by intros (? & _ & [=])]].
  unfold ret. split.
  - intros [= ->%Nat.eqb_eq]. eauto.
  - intros (f' & [= ->] & [= ->]). by rewrite Nat.eqb_refl.
Qed.

Lemma validate_same_slot h cn bases k w1 w2 :
  isinstance h w1 override = true -> isinstance h w2 override = true ->
  slot h w1 = slot h w2 ->
  validate h cn bases k w1 = validate h cn bases k w2.
Proof. intros H1 H2 Hs. unfold validate. by rewrite H1, H2, Hs. Qed.

Lemma scan_no_marker_with_class setattr h mcls name bases mro (d : pydict) :
  wf_store h = true ->
  values_below (length h) d = true ->
  no_marker h d = true ->
  scan setattr (length h) (with_class h mcls name bases mro d)
  = Ok tt (with_class h mcls name bases mro d).
Proof.
  intros Hwf Hv Hn. unfold scan, bind, get_store.
  apply scan_items_no_marker; [done|].
  rewrite class_dict_with_class. intros k v Hin.
  rewrite (frame_isinstance h); eauto using wf_store_closed, with_class_agree.
  - by eapply no_marker_spec.
  - by eapply values_below_elem.
Qed.


(** ** The class as [type.__new__] left it *)


Lemma class_name_with_class h mcls name bases mro d :
  class_name (with_class h mcls name bases mro d) (length h) = name.
Proof. unfold class_name. by rewrite with_class_lookup. Qed.





Lemma unwrap_dict_keys h (d : pydict) : (unwrap_dict h d).*1 = d.*1.
Proof.
  induction d as [|[k v] d IH]; [done|]. unfold unwrap_dict in *. cbn [map].
  rewrite !fmap_cons. cbn [fst]. by f_equal.
Qed.



Lemma hasattr_getattr h b name : hasattr h b name = bool_decide (is_Some (getattr h b name)).
Proof. done. Qed.




(* ================================================================= *)
(** * The scenario of [main()] and the claims of the specification *)

Import Main.

(** ** The scenario of [main()] *)

Example main_class_B :
  outcome (let* A := class_A in subclass "B" A body_B)
  = inr (OverrideError "attempt to override a method object with a function object").
Proof. reflexivity. Qed.

Example main_class_C :
  attribute_types (let* A := class_A in subclass "C" A body_C)
  = inl [("__init__", "function"); ("c", "function")].
Proof. reflexivity. Qed.

Example main_class_D :
  attribute_types (let* A := class_A in subclass "D" A body_D)
  = inl [("d", "classmethod")].
Proof. reflexivity. Qed.

Example main_class_E :
  attribute_types (let* A := class_A in subclass "E" A body_E)
  = inl [("e", "property")].
Proof. reflexivity. Qed.

Example main_class_F :
  attribute_types (let* A := class_A in subclass "F" A body_F)
  = inl [("b", "classmethod")].
Proof. reflexivity. Qed.

(** A staticmethod overrides a function: its kind is [function]. *)
Example staticmethod_overrides_function :
  attribute_types (let* A := class_A in subclass "G" A body_G)
  = inl [("c", "staticmethod")].
Proof. reflexivity. Qed.

(** [A] has no [__eq__] of its own: the marked function is compared with
    the slot wrapper that [A] inherits from [object]. *)
Example inherited_name_is_checked_by_kind :
  outcome (let* A := class_A in subclass "H" A body_H)
  = inr (OverrideError
           "attempt to override a wrapper_descriptor object with a function object").
Proof. reflexivity. Qed.

(** ** C1. The factory *)

(** C1, at the failing input. The class [B(A)] that overrides the
    function [c] by a function is built by the default hook, with the
    bare function installed; under the hook the factory produces from
    [type], the same class statement raises [TypeError], because
    [Meta.__setattr__] calls [metaclass.__setattr__(name, value)] without
    the class. The same happens with the default hook as base. *)
Theorem C1_produced_hook_cannot_install_a_marked_member :
  attribute_types (override_c OverridesMeta_hook OverridesMeta)
  = inl [("c", "function")]
  /\
  outcome (let* mcls := new_metaclass "Overridestype" in
           override_c (create_custom_overrides_meta type_hook None None) mcls)
  = inr (TypeError "descriptor '__setattr__' requires a 'type' object but received a 'str'")
  /\
  outcome (let* mcls := new_metaclass "OverridesOverridesMeta" in
           override_c (create_custom_overrides_meta OverridesMeta_hook None None) mcls)
  = inr (TypeError "__setattr__() missing 1 required positional argument: 'value'").
Proof. by vm_compute. Qed.

(** ** C2. Kind mismatch *)




(** ** C3. A member of the same kind *)



(** ** C4. No base has the name *)




(** ** C5. The order of the bases decides *)

(** First match over the immediate bases is not a search of the MRO: in
    the diamond, [W(Y, Z)] is checked against the function [Y] inherits,
    while [W] itself would resolve the name to the property of [Z]. *)
Example first_match_is_not_mro_lookup :
  let h := after diamond in
  let '(Y, Z, W) := value_of (0, 0, 0) diamond in
  class_bases h W = [Y; Z] /\
  (value_type h <$> find_overriden h (class_bases h W) "f") = Some (Some function) /\
  (value_type h <$> getattr h W "f") = Some (Some property).
Proof. by vm_compute. Qed.



(** ** C6. No marker, no change *)



(** ** C7. The slot of a wrapper *)

(** C7 does not hold as stated: after [w = override(f)], the assignment
    [w.__func__ = g] succeeds, and [w] wraps [g] and no longer [f]. *)
Lemma C7_counterexample : outcome rebind = inl (true, true).
Proof. reflexivity. Qed.

(** C7 (amended). A wrapper keeps the member it wraps in its slot
    [__func__]. Comparing wrappers, assigning through the interceptor of
    the Construction Hook and building classes through it leave every
    wrapper with the member it had. The slot itself is not read-only:
    [w.__func__ = g] succeeds and rebinds the wrapper to [g], and
    [del w.__func__] empties it. *)
Theorem C7_only_assignment_to_the_slot_rebinds_a_wrapper
    (h : heap) (w f : ref) :
  slot h w = Some f ->
  (forall other, store_of (override___eq__ w other h) = h /\
                 store_of (override___eq__ other w h) = h) /\
  (forall cls name value,
     slot (store_of (OverridesMeta___setattr__ cls name value h)) w = Some f) /\
  (forall mcls name bases classdict,
     slot (store_of (construct OverridesMeta_hook mcls name bases classdict h)) w = Some f) /\
  (forall g, exists h', set___func__ w g h = Ok tt h' /\ slot h' w = Some g) /\
  (exists h', del___func__ w h = Ok tt h' /\ slot h' w = None).
Proof.
  intros Hs. split_and!.
  - intros other. unfold override___eq__, bind, get_store, ret. split.
    + destruct (negb _); [done|]. rewrite !get___func___slot.
      destruct (slot h w); [|done]. rewrite get___func___slot.
      by destruct (slot h other).
    + destruct (negb _); [done|]. rewrite !get___func___slot.
      destruct (slot h other); [|done]. rewrite get___func___slot.
      by destruct (slot h w).
  - intros cls name value. by rewrite OverridesMeta___setattr___slot.
  - intros mcls name bases classdict.
    rewrite OverridesMeta___new___slot; [done|]. by eapply slot_Some_lt.
  - intros g. unfold set___func__.
    unfold slot in Hs. destruct (h !! w) as [[t b]|] eqn:E; [|done].
    destruct b; try done. eexists. split; [done|].
    unfold slot. rewrite list_lookup_insert_eq; [done|]. by eapply lookup_lt_Some.
  - unfold del___func__.
    unfold slot in Hs. destruct (h !! w) as [[t b]|] eqn:E; [|done].
    destruct b as [| | | | |[f'|]| |]; try done. eexists. split; [done|].
    unfold slot. rewrite list_lookup_insert_eq; [done|]. by eapply lookup_lt_Some.
Qed.

Lemma C7_only_assignment_to_the_slot_rebinds_a_wrapper_witness :
  let h := before body_B in
  let w := default 0 (dict_get "b" (namespace body_B)) in
  (forall cls name value,
     slot (store_of (OverridesMeta___setattr__ cls name value h)) w = slot h w) /\
  (exists h', set___func__ w py_None h = Ok tt h' /\ slot h' w = Some py_None) /\
  (exists h', del___func__ w h = Ok tt h' /\ slot h' w = None).
Proof.
  intros h w.
  destruct (C7_only_assignment_to_the_slot_rebinds_a_wrapper h w (default 0 (slot h w)))
    as (_ & H2 & _ & H5 & H6).
  - reflexivity.
  - split_and!; [exact H2 | exact (H5 py_None) | exact H6].
Defined.

(** ** C8. Equality and hash of wrappers *)



(** ** C9. Construction of a wrapper *)

(** C9. [override(func)] returns a new wrapper around [func] when [func]
    is callable or an instance of [classmethod], [staticmethod] or
    [property], and raises [ValueError] otherwise; in that case the store
    gains no object that wraps anything. *)
Theorem C9_marker_accepts_callables_and_descriptors (h : heap) (func : ref) :
  closed h = true ->
  func < length h ->
  override___new__ override func h =
  if callable h func || isinstance h func classmethod
     || isinstance h func staticmethod || isinstance h func property
  then Ok (length h) (h ++ [PyObj override (BSlots (Some func))])
  else Raise (ValueError "value of func parameter must be callable")
             (h ++ [PyObj override (BSlots None)]).
Proof. apply override___new___run. Qed.

Lemma C9_marker_accepts_callables_and_descriptors_witness :
  override___new__ override py_None builtins
  = Raise (ValueError "value of func parameter must be callable")
          (builtins ++ [PyObj override (BSlots None)])
  /\
  override___new__ override OverridesBase builtins
  = Ok (length builtins) (builtins ++ [PyObj override (BSlots (Some OverridesBase))]).
Proof.
  split.
  - apply (C9_marker_accepts_callables_and_descriptors builtins py_None).
    + reflexivity.
    + vm_compute. lia.
  - apply (C9_marker_accepts_callables_and_descriptors builtins OverridesBase).
    + reflexivity.
    + vm_compute. lia.
Defined.

(** ** C10. Names of [object] *)




(* ================================================================= *)
(** * Further properties of the code *)

(** ** Class construction by the default hook: outcomes *)





(** ** Class construction by the default hook: what it leaves alone *)



(** X4. [OverridesMeta.__new__] neither adds, removes nor reorders
    names: whether it returns or raises, the namespace of the class has
    the keys that [type.__new__] gave it, in their order. *)
Theorem construction_keeps_names_and_order
    (h : heap) (mcls : ref) (name : string) (bases : list ref) (classdict : pydict)
    (cls : ref) (h1 : heap) :
  wf_store h = true ->
  distinct_keys classdict = true ->
  values_below (length h) classdict = true ->
  type___new__ mcls name bases classdict h = Ok cls h1 ->
  (class_dict (store_of (construct OverridesMeta_hook mcls name bases classdict h)) cls).*1
  = (class_dict h1 cls).*1.
Proof.
  intros Hwf Hd Hv Hnew.
  rewrite (OverridesMeta___new___install _ _ _ _ _ _ _ Hwf Hd (values_below_spec _ _ Hv) Hnew).
  destruct (type___new___Ok _ _ _ _ _ _ _ Hnew) as (tl & -> & -> & _).
  rewrite class_dict_with_class.
  destruct (install h name (effective_bases bases) classdict) as [r e] eqn:Hi.
  apply install_keys in Hi.
  destruct e; simpl; (rewrite class_dict_set_dict; [done | apply is_class_with_class]).
Qed.

Lemma construction_keeps_names_and_order_witness :
  let h := before body_C in
  let h1 := store_of (type___new__ OverridesMeta "C" [A] (namespace body_C) h) in
  (class_dict (store_of (construct OverridesMeta_hook OverridesMeta "C" [A]
                           (namespace body_C) h)) (length h)).*1
  = (class_dict h1 (length h)).*1.
Proof.
  intros h h1.
  exact (construction_keeps_names_and_order h OverridesMeta "C" [A] (namespace body_C)
           (length h) h1 eq_refl eq_refl eq_refl eq_refl).
Defined.





(** X7. The store stays well formed and every class stays a descendant
    of [object] across a class statement under [OverridesMeta], whether
    it returns or raises. *)
Theorem construction_keeps_the_store_well_formed
    (h : heap) (mcls : ref) (name : string) (bases : list ref) (classdict : pydict) :
  wf_store h = true ->
  rooted h = true ->
  mcls < length h ->
  distinct_keys classdict = true ->
  values_below (length h) classdict = true ->
  let s := store_of (construct OverridesMeta_hook mcls name bases classdict h) in
  wf_store s = true /\ rooted s = true.
Proof.
  intros Hwf Hr Hm Hd Hv s. split.
  - by apply construct_wf_store.
  - by apply construct_rooted.
Qed.

Lemma construction_keeps_the_store_well_formed_witness :
  let s := store_of (construct OverridesMeta_hook OverridesMeta "X" [A] (namespace body_X)
                       (before body_X)) in
  wf_store s = true /\ rooted s = true.
Proof.
  apply (construction_keeps_the_store_well_formed (before body_X) OverridesMeta "X" [A]
           (namespace body_X)); try reflexivity.
  vm_compute. lia.
Defined.

(** ** Assignment to a class attribute *)





(** ** The marker *)

(** X10. On wrappers whose slots are set, [override.__eq__] is an
    equivalence: every wrapper equals itself, the comparison does not
    depend on the order of its operands, and it is transitive. It agrees
    with [override.__hash__]: wrappers that compare equal have hashes
    with one outcome. *)
Theorem equality_of_wrappers_is_an_equivalence (s : heap) (a b c : ref) :
  isinstance s a override = true ->
  isinstance s b override = true ->
  isinstance s c override = true ->
  is_Some (slot s a) -> is_Some (slot s b) -> is_Some (slot s c) ->
  override___eq__ a a s = Ok (PyBool true) s /\
  override___eq__ a b s = override___eq__ b a s /\
  (override___eq__ a b s = Ok (PyBool true) s ->
   override___eq__ b c s = Ok (PyBool true) s ->
   override___eq__ a c s = Ok (PyBool true) s) /\
  (override___eq__ a b s = Ok (PyBool true) s ->
   forall hash tuple_hash,
     override___hash__ hash tuple_hash a s = override___hash__ hash tuple_hash b s).
Proof.
  intros Ha Hb Hc [f Hf] [g Hg] [k Hk]. split_and!.
  - apply override___eq___true_iff; eauto.
  - rewrite (override___eq___wrappers s a b f g), (override___eq___wrappers s b a g f)
      by done.
    by rewrite Nat.eqb_sym.
  - intros (x & Hx & Hx')%override___eq___true_iff
           (y & Hy & Hy')%override___eq___true_iff; try done.
    apply override___eq___true_iff; [done|]. exists x. split; congruence.
  - intros (x & Hx & Hx')%override___eq___true_iff hash tuple_hash; [|done].
    by rewrite (override___hash___member _ _ a x), (override___hash___member _ _ b x).
Qed.

Lemma equality_of_wrappers_is_an_equivalence_witness :
  let s := after Inputs.two_wrappers in
  let '(w1, w2) := value_of (0, 0) Inputs.two_wrappers in
  override___eq__ w1 w1 s = Ok (PyBool true) s /\
  override___eq__ w1 w2 s = override___eq__ w2 w1 s /\
  (override___eq__ w1 w2 s = Ok (PyBool true) s ->
   override___eq__ w2 w1 s = Ok (PyBool true) s ->
   override___eq__ w1 w1 s = Ok (PyBool true) s) /\
  (override___eq__ w1 w2 s = Ok (PyBool true) s ->
   forall hash tuple_hash,
     override___hash__ hash tuple_hash w1 s = override___hash__ hash tuple_hash w2 s).
Proof.
  refine (equality_of_wrappers_is_an_equivalence (after Inputs.two_wrappers)
            (fst (value_of (0, 0) Inputs.two_wrappers))
            (snd (value_of (0, 0) Inputs.two_wrappers))
            (fst (value_of (0, 0) Inputs.two_wrappers))
            eq_refl eq_refl eq_refl _ _ _); vm_compute; eauto.
Defined.

(** X11. Validation sees a wrapper only through its member: two wrappers
    that hold the same member, or both none, are treated alike by
    [OverridesMeta.__setattr__] and by the [__setattr__] of any produced
    metaclass, to the same result and the same store. *)
Theorem wrappers_of_one_member_are_validated_alike
    (mc : hook) (cls : ref) (name : string) (w1 w2 : ref) (h : heap) :
  isinstance h w1 override = true ->
  isinstance h w2 override = true ->
  slot h w1 = slot h w2 ->
  OverridesMeta___setattr__ cls name w1 h = OverridesMeta___setattr__ cls name w2 h /\
  Meta___setattr__ mc cls name w1 h = Meta___setattr__ mc cls name w2 h.
Proof.
  intros H1 H2 Hs.
  rewrite !OverridesMeta___setattr___validate, !Meta___setattr___validate.
  by rewrite (validate_same_slot h _ _ name w1 w2).
Qed.

Lemma wrappers_of_one_member_are_validated_alike_witness :
  let h := after Inputs.two_wrappers in
  let '(w1, w2) := value_of (0, 0) Inputs.two_wrappers in
  w1 <> w2 /\
  OverridesMeta___setattr__ A "c" w1 h = OverridesMeta___setattr__ A "c" w2 h /\
  Meta___setattr__ type_hook A "c" w1 h = Meta___setattr__ type_hook A "c" w2 h.
Proof.
  split; [by vm_compute|].
  exact (wrappers_of_one_member_are_validated_alike type_hook A "c"
           (fst (value_of (0, 0) Inputs.two_wrappers))
           (snd (value_of (0, 0) Inputs.two_wrappers))
           (after Inputs.two_wrappers) eq_refl eq_refl eq_refl).
Defined.

(** X12. Markers do not nest. The class [override] defines no
    [__call__] and is no subclass of [classmethod], [staticmethod] or
    [property], so [override(w)] for a wrapper [w] raises [ValueError];
    the instance made before the check is left with an empty slot. *)
Theorem markers_cannot_be_nested (h : heap) (cls w : ref) (f : option ref) :
  closed h = true ->
  h !! w = Some (PyObj override (BSlots f)) ->
  type_lookup h override "__call__" = None ->
  issubclass h override classmethod = false ->
  issubclass h override staticmethod = false ->
  issubclass h override property = false ->
  override___new__ cls w h
  = Raise (ValueError "value of func parameter must be callable")
          (h ++ [PyObj cls (BSlots None)]).
Proof.
  intros Hc Hw Hcall H1 H2 H3.
  rewrite override___new___run; [|done|by eapply lookup_lt_Some].
  assert (valid_member h w = false) as ->; [|done].
  unfold valid_member, callable, isinstance, type_of. rewrite Hw. simpl.
  by rewrite Hcall, H1, H2, H3.
Qed.

Lemma markers_cannot_be_nested_witness :
  let h := before body_B in
  let w := default 0 (dict_get "b" (namespace body_B)) in
  override___new__ override w h
  = Raise (ValueError "value of func parameter must be callable")
          (h ++ [PyObj override (BSlots None)]).
Proof.
  intros h w.
  exact (markers_cannot_be_nested h override w (slot h w)
           eq_refl eq_refl eq_refl eq_refl eq_refl eq_refl).
Defined.



(** ** Kinds: the note of the docstring of [override] *)





(** ** The factory *)

(** X16. The [__setattr__] of a produced metaclass never returns. When
    the base metaclass refuses a call of its [__setattr__] with two
    arguments, as [type] and every function of three parameters do, each
    assignment through the produced [__setattr__] raises; for a value
    that is no marker the exception is the one of that call. A produced
    metaclass refuses such a call in turn, so that the same holds for
    the metaclasses produced from it. *)
Theorem produced_interceptor_never_returns
    (mc : hook) (cls : ref) (name : string) (value : ref) (h : heap) :
  (forall a1 a2 s, exists e s', hook___setattr__ mc [a1; a2] s = Raise e s') ->
  (exists e h', Meta___setattr__ mc cls name value h = Raise e h') /\
  (isinstance h value override = false ->
   Meta___setattr__ mc cls name value h = hook___setattr__ mc [AStr name; AObj value] h) /\
  (forall n doc a1 a2 s, exists e s',
     hook___setattr__ (create_custom_overrides_meta mc n doc) [a1; a2] s = Raise e s').
Proof.
  intros Harity. split_and!.
  - by apply Meta___setattr___never_returns.
  - intros Hi. unfold Meta___setattr__, bind, get_store. by rewrite Hi.
  - intros n doc a1 a2 s. cbn [create_custom_overrides_meta hook___setattr__].
    apply def___setattr___two_arguments.
Qed.

Lemma produced_interceptor_never_returns_witness :
  let h := after class_A in
  (exists e h', Meta___setattr__ type_hook A "c" py_None h = Raise e h') /\
  (isinstance h py_None override = false ->
   Meta___setattr__ type_hook A "c" py_None h
   = hook___setattr__ type_hook [AStr "c"; AObj py_None] h) /\
  (forall n doc a1 a2 s, exists e s',
     hook___setattr__ (create_custom_overrides_meta type_hook n doc) [a1; a2] s
     = Raise e s').
Proof.
  intros h.
  exact (produced_interceptor_never_returns type_hook A "c" py_None h
           type___setattr___two_arguments).
Defined.


(** X18. On a class body without markers a produced metaclass adds
    nothing to its base: produced from [type] or from [OverridesMeta], it
    builds the class as [type.__new__] does. *)
Theorem produced_hook_without_markers_is_native_construction
    (n doc : option string) (h : heap) (mcls : ref) (name : string)
    (bases : list ref) (classdict : pydict) :
  wf_store h = true ->
  values_below (length h) classdict = true ->
  no_marker h classdict = true ->
  construct (create_custom_overrides_meta type_hook n doc) mcls name bases classdict h
  = type___new__ mcls name bases classdict h /\
  construct (create_custom_overrides_meta OverridesMeta_hook n doc) mcls name bases classdict h
  = type___new__ mcls name bases classdict h.
Proof.
  intros Hwf Hv Hn. split.
  - unfold construct, create_custom_overrides_meta, type_hook.
    cbn [hook___new__ hook___setattr__]. unfold Meta___new__, bind.
    cbn [hook___new__].
    destruct (type___new__ mcls name bases classdict h) as [cls h1|e h1] eqn:Hnew; [|done].
    destruct (type___new___Ok _ _ _ _ _ _ _ Hnew) as (tl & -> & -> & _).
    by rewrite scan_no_marker_with_class.
  - unfold construct, create_custom_overrides_meta.
    cbn [hook___new__ hook___setattr__]. unfold Meta___new__, bind.
    change (hook___new__ OverridesMeta_hook) with OverridesMeta___new__.
    unfold OverridesMeta___new__, bind.
    destruct (type___new__ mcls name bases classdict h) as [cls h1|e h1] eqn:Hnew; [|done].
    destruct (type___new___Ok _ _ _ _ _ _ _ Hnew) as (tl & -> & -> & _).
    rewrite scan_no_marker_with_class by done. unfold ret.
    by rewrite scan_no_marker_with_class.
Qed.

Lemma produced_hook_without_markers_is_native_construction_witness :
  let h := after body_A in
  let ns := value_of [] body_A in
  construct (create_custom_overrides_meta type_hook None None) type "A" [] ns h
  = type___new__ type "A" [] ns h /\
  construct (create_custom_overrides_meta OverridesMeta_hook None None) type "A" [] ns h
  = type___new__ type "A" [] ns h.
Proof.
  intros h ns.
  exact (produced_hook_without_markers_is_native_construction None None h type "A" [] ns
           eq_refl eq_refl eq_refl).
Defined.



(** ** [main()] *)

(** X20. Run after the module is loaded, [main()] prints one line and
    returns: the class statement of [B] fails, because [A.b] was rebound
    to a bound method before it, and the statements of [C], [D], [E] and
    [F] go through. *)
Theorem main_prints_one_line :
  exists h,
    main builtins
    = Ok ["OverrideError raised while overriding method 'b' via class B: attempt to override a method object with a function object"] h /\
    wf_store h = true.
Proof. eexists. split; by vm_compute. Qed.
